(** * weather-app: the query orchestrator and forecast reducer of [src/App.tsx]

    A shallow embedding of the logic of [App.tsx]: the icon selection of
    [WeatherIcon] and the event handler [fetchWeather] (submission guard,
    request, reduction of the provider's sample list, error handling).

    JavaScript data is modelled as the language has it:
    - a string is its sequence of UTF-16 code units;
    - a number is an IEEE 754 binary64 value (Rocq's primitive floats);
    - the parsed response body is a dynamically typed value, and reading
      a property of [undefined] or [null] throws;
    - a [Set] of strings is the list of its elements in insertion order.

    Built-ins whose result depends on the Unicode tables, the locale or the
    time zone of the browser ([toLowerCase], the [Date] methods, the
    conversion of strings and objects to numbers) are the fields of a
    [Runtime]; the theorems hold for every runtime, and [Browser.utc_en_US]
    is one runtime, used to evaluate the program on concrete inputs. *)

From Stdlib Require Import ZArith NArith Ascii String DecimalString.
From Stdlib Require Import Floats.PrimFloat Floats.SpecFloat Floats.FloatOps.
From Stdlib Require Import Numbers.Cyclic.Int63.Uint63.
From stdpp Require Import base decidable option numbers list sorting.

Set Default Proof Using "Type".
#[local] Set Warnings "-inexact-float,-register-all".

(* ===================================================================== *)
(** ** Strings *)
(* ===================================================================== *)

(** A JavaScript string: a finite sequence of 16-bit code units. *)
Definition code_unit := N.
Definition jsstring := list code_unit.

(** A string literal of the source (ASCII only in [App.tsx]). *)
Definition js (s : string) : jsstring :=
  map N_of_ascii (list_ascii_of_string s).

(** [s.startsWith(p)], the test behind [includes] at one position. *)
Fixpoint startsWith (s p : jsstring) {struct p} : bool :=
  match p, s with
  | [], _ => true
  | _ :: _, [] => false
  | c :: p', d :: s' => (c =? d)%N && startsWith s' p'
  end.

(** [s.includes(p)]: [p] occurs in [s] as a contiguous run of code units. *)
Fixpoint includes (s p : jsstring) : bool :=
  startsWith s p ||
  match s with
  | [] => false
  | _ :: s' => includes s' p
  end.

(** The declarative reading of "contains". *)
Definition contains (s p : jsstring) : Prop :=
  ∃ pre post, s = pre ++ p ++ post.

(** White space and line terminators of ECMAScript, as removed by [trim]:
    TAB, LF, VT, FF, CR, SP, NBSP, the space separators (Zs), LS, PS and
    the byte order mark. All of them are single code units. *)
Definition is_white_space (c : code_unit) : bool :=
  ((9 <=? c) && (c <=? 13) || (c =? 32) || (c =? 160) || (c =? 5760)
   || (8192 <=? c) && (c <=? 8202) || (c =? 8232) || (c =? 8233)
   || (c =? 8239) || (c =? 8287) || (c =? 12288) || (c =? 65279))%N.

Fixpoint trimStart (s : jsstring) : jsstring :=
  match s with
  | [] => []
  | c :: s' => if is_white_space c then trimStart s' else s
  end.

Definition trimEnd (s : jsstring) : jsstring :=
  reverse (trimStart (reverse s)).

(** [s.trim()] *)
Definition trim (s : jsstring) : jsstring := trimEnd (trimStart s).

(** Truthiness of a string: only the empty string is falsy. *)
Definition truthy_string (s : jsstring) : bool :=
  match s with [] => false | _ :: _ => true end.

(* ===================================================================== *)
(** ** Numbers *)
(* ===================================================================== *)

(** The integer [n] as a number; exact for [|n| < 2^53]. The sign of a
    zero result is given by [neg]. *)
Definition float_of_Z (neg : bool) (n : Z) : float :=
  match n with
  | Z0 => if neg then (-0)%float else 0%float
  | Zpos p => of_uint63 (Uint63.of_Z (Zpos p))
  | Zneg p => (- of_uint63 (Uint63.of_Z (Zpos p)))%float
  end.

(** The integer nearest to [v / 2^k], ties towards +infinity:
    [floor (v / 2^k + 1/2)]. *)
Definition round_half_up (v : Z) (k : Z) : Z :=
  (2 * v + 2 ^ k) / 2 ^ (k + 1).

(** [Math.round(x)]: NaN, the infinities and integral values are returned
    unchanged; any other value [±m * 2^e] (so [e < 0] and [|x| < 2^52])
    is rounded to the nearest integer, ties towards +infinity, and a zero
    result keeps the sign of [x]. *)
Definition Math_round (x : float) : float :=
  match Prim2SF x with
  | S754_finite s m e =>
      if (0 <=? e)%Z then x
      else float_of_Z s (round_half_up (if s then Zneg m else Zpos m) (- e))
  | _ => x
  end.

(** The integral part of a finite number (truncation towards zero), as
    used by the [Date] constructor; [None] for NaN and the infinities. *)
Definition trunc_Z (x : float) : option Z :=
  match Prim2SF x with
  | S754_zero _ => Some 0%Z
  | S754_finite s m e =>
      let a := if (0 <=? e)%Z then (Zpos m * 2 ^ e)%Z
               else (Zpos m / 2 ^ (- e))%Z in
      Some (if s then (- a)%Z else a)
  | _ => None
  end.

(* ===================================================================== *)
(** ** The icon of a condition: [WeatherIcon] *)
(* ===================================================================== *)

(** The four components [WeatherIcon] can return. *)
Inductive icon := CloudRain | Cloud | CloudSnow | Sun.

#[global] Instance icon_eq_dec : EqDecision icon.
Proof. solve_decision. Defined.

(** The [className] each icon is rendered with. *)
Definition className (i : icon) : jsstring :=
  match i with
  | CloudRain => js "w-16 h-16 text-blue-400"
  | Cloud => js "w-16 h-16 text-gray-400"
  | CloudSnow => js "w-16 h-16 text-blue-200"
  | Sun => js "w-16 h-16 text-yellow-400"
  end.

Section Icon.
(** [String.prototype.toLowerCase], which follows the Unicode tables. *)
Variable toLowerCase : jsstring → jsstring.

Definition WeatherIcon (condition : jsstring) : icon :=
  let lower := toLowerCase condition in
  if includes lower (js "rain") || includes lower (js "drizzle") then CloudRain
  else if includes lower (js "cloud") then Cloud
  else if includes lower (js "snow") then CloudSnow
  else Sun.
End Icon.

(* ===================================================================== *)
(** ** Values and exceptions *)
(* ===================================================================== *)

(** A JavaScript value as [response.json()] can produce it, together with
    [undefined], the result of reading a property that is absent. An
    object is the list of its own properties. *)
Inductive value :=
  | Undefined
  | Null
  | Bool (b : bool)
  | Num (x : float)
  | Str (s : jsstring)
  | Arr (elements : list value)
  | Obj (properties : list (jsstring * value)).

(** What the [try] block of [fetchWeather] can throw. *)
Inductive exn :=
  | TypeError
  | SyntaxError
  | Error (message : jsstring).

(** The outcome of an expression: a value, or an exception on its way to
    the enclosing [catch]. *)
Inductive result (A : Type) :=
  | Ok (a : A)
  | Throw (e : exn).
Arguments Ok {A} a.
Arguments Throw {A} e.

#[global] Instance result_ret : MRet result := λ A a, Ok a.
#[global] Instance result_bind : MBind result := λ A B k r,
  match r with
  | Ok a => k a
  | Throw e => Throw e
  end.

Definition is_Ok {A} (r : result A) : bool :=
  match r with Ok _ => true | Throw _ => false end.

(** The own property [k] of an object (a parsed object has each key
    once). *)
Fixpoint own_property (k : jsstring) (properties : list (jsstring * value))
  : option value :=
  match properties with
  | [] => None
  | (k', v) :: rest => if bool_decide (k = k') then Some v else own_property k rest
  end.

(** The array index a property key denotes: a decimal numeral without a
    leading zero. *)
Definition digit (c : code_unit) : option nat :=
  if ((48 <=? c) && (c <=? 57))%N then Some (N.to_nat (c - 48)) else None.

Fixpoint digits_value (acc : nat) (k : jsstring) : option nat :=
  match k with
  | [] => Some acc
  | c :: k' => d ← digit c; digits_value (10 * acc + d) k'
  end.

Definition array_index (k : jsstring) : option nat :=
  match k with
  | [] => None
  | c :: k' => if (c =? 48)%N && truthy_string k' then None else digits_value 0 k
  end.

(** [v[k]] and [v.k]. Reading a property of [undefined] or [null] throws
    a [TypeError]; an absent property reads as [undefined]. Arrays and
    strings answer their indices; none of the names [App.tsx] reads
    ([list], [main], [temp], ...) is inherited from a prototype, so
    every other key of an array, string, number or boolean is absent. *)
Definition get (v : value) (k : jsstring) : result value :=
  match v with
  | Undefined | Null => Throw TypeError
  | Obj properties => Ok (default Undefined (own_property k properties))
  | Arr elements =>
      Ok (default Undefined (i ← array_index k; elements !! i))
  | Str s =>
      Ok (default Undefined (i ← array_index k; c ← s !! i; Some (Str [c])))
  | Bool _ | Num _ => Ok Undefined
  end.

(** A property chain of the source: [data.list[0].main] is
    [Ok data ▷ "list" ▷ "0" ▷ "main"]. *)
Definition prop (r : result value) (k : string) : result value :=
  v ← r; get v (js k).
Notation "r ▷ k" := (prop r k) (at level 40, left associativity).

(** The strings a [for ... of] over a string yields: its code points, a
    surrogate pair counting as one. *)
Definition is_high_surrogate (c : code_unit) : bool :=
  ((55296 <=? c) && (c <=? 56319))%N.
Definition is_low_surrogate (c : code_unit) : bool :=
  ((56320 <=? c) && (c <=? 57343))%N.

Fixpoint code_points (s : jsstring) : list jsstring :=
  match s with
  | [] => []
  | c :: s' =>
      match s' with
      | d :: s'' =>
          if is_high_surrogate c && is_low_surrogate d
          then [c; d] :: code_points s''
          else [c] :: code_points s'
      | [] => [[c]]
      end
  end.

(** The items a [for (const item of v)] visits: arrays and strings are
    iterable, every other value here is not. *)
Definition iterate (v : value) : result (list value) :=
  match v with
  | Arr elements => Ok elements
  | Str s => Ok (Str <$> code_points s)
  | _ => Throw TypeError
  end.

(** A [Set] of strings: its elements in insertion order. *)
Definition Set_has (s : list jsstring) (x : jsstring) : bool :=
  bool_decide (x ∈ s).
Definition Set_add (s : list jsstring) (x : jsstring) : list jsstring :=
  if Set_has s x then s else s ++ [x].

(* ===================================================================== *)
(** ** Dates and the runtime *)
(* ===================================================================== *)

(** A [Date]: its time value in milliseconds since the epoch, or [None]
    for an invalid date. *)
Definition Date := option Z.

(** [new Date(x)]: NaN, the infinities and values beyond 8.64e15 ms give
    an invalid date; other values are truncated. (Numbers of magnitude
    near 8.64e15 are integers, so the bound can be tested after the
    truncation.) *)
Definition Date_new (x : float) : Date :=
  t ← trunc_Z x;
  if (Z.abs t <=? 8640000000000000)%Z then Some t else None.

(** What the program takes from the browser. *)
Class Runtime := {
  (** [ToNumber] of a string *)
  StringToNumber : jsstring → float;
  (** [ToNumber] of an array or object, through [ToPrimitive] *)
  ObjectToNumber : value → result float;
  (** [date.getHours()], in the local time zone; NaN for an invalid date *)
  getHours : Date → float;
  (** [date.toLocaleDateString()], in the default locale and time zone *)
  toLocaleDateString : Date → jsstring;
  (** [date.toLocaleDateString('en-US',
        { weekday: 'short', month: 'short', day: 'numeric' })] *)
  toLocaleDateString_short : Date → jsstring;
  (** [import.meta.env.VITE_OPENWEATHER_API_KEY]; [None] when unset *)
  VITE_OPENWEATHER_API_KEY : option jsstring;
}.

(* ===================================================================== *)
(** ** The data of the application *)
(* ===================================================================== *)

(** [WeatherData['current']] *)
Module Current.
Record t := {
  temp : float;
  feelsLike : float;
  condition : value;
  humidity : value;
  windSpeed : float;
  pressure : value;
  visibility : float;
}.
End Current.

(** An element of [WeatherData['forecast']] *)
Module Entry.
Record t := {
  date : jsstring;
  high : float;
  low : float;
  condition : value;
}.
End Entry.

Module WeatherData.
Record t := {
  city : value;
  current : Current.t;
  forecast : list Entry.t;
}.
End WeatherData.

(** The four [useState] cells of [App]. *)
Record QueryState := {
  city : jsstring;
  weather : option WeatherData.t;
  loading : bool;
  error : jsstring;
}.

(** The state [App] starts in. *)
Definition initial : QueryState :=
  {| city := []; weather := None; loading := false; error := [] |}.

(** What the handler does to the outside, in program order. *)
Inductive effect :=
  | preventDefault
  | setCity (s : jsstring)
  | setWeather (w : option WeatherData.t)
  | setLoading (b : bool)
  | setError (s : jsstring)
  | fetch (url : jsstring).

Definition apply_effect (st : QueryState) (e : effect) : QueryState :=
  match e with
  | preventDefault | fetch _ => st
  | setCity s =>
      {| city := s; weather := weather st; loading := loading st; error := error st |}
  | setWeather w =>
      {| city := city st; weather := w; loading := loading st; error := error st |}
  | setLoading b =>
      {| city := city st; weather := weather st; loading := b; error := error st |}
  | setError s =>
      {| city := city st; weather := weather st; loading := loading st; error := s |}
  end.

(** The state after a run of effects. *)
Definition run (st : QueryState) (effects : list effect) : QueryState :=
  foldl apply_effect st effects.

(** The requests a run of effects issues. *)
Definition requests (effects : list effect) : list jsstring :=
  omap (λ e, match e with fetch url => Some url | _ => None end) effects.

(** An HTTP response: [response.ok] holds for the statuses 200 to 299,
    and [response.json()] gives the parsed body or rejects. *)
Record Response := {
  status : N;
  json : result value;
}.

Definition ok (r : Response) : bool :=
  ((200 <=? status r) && (status r <=? 299))%N.

(** How the promise of [fetch] settles. *)
Inductive fetch_outcome :=
  | Rejected (e : exn)
  | Resolved (r : Response).

(* ===================================================================== *)
(** ** The handler: [fetchWeather] *)
(* ===================================================================== *)

(** The one message the [catch] block shows. *)
Definition error_message : jsstring :=
  js "Unable to fetch weather data. Please check the city name and try again.".

Section Handler.
Context `{Runtime}.

(** [ToNumber], applied by [Math.round] and by [*] and [/]. *)
Definition ToNumber (v : value) : result float :=
  match v with
  | Undefined => Ok nan
  | Null => Ok 0%float
  | Bool b => Ok (if b then 1%float else 0%float)
  | Num x => Ok x
  | Str s => Ok (StringToNumber s)
  | Arr _ | Obj _ => ObjectToNumber v
  end.

(** The text a template literal inserts for the API key. *)
Definition API_KEY : jsstring :=
  default (js "undefined") VITE_OPENWEATHER_API_KEY.

(** The URL of the request; [city] is inserted as typed. *)
Definition request_url (city : jsstring) : jsstring :=
  js "https://api.openweathermap.org/data/2.5/forecast?q=" ++ city
  ++ js "&units=metric&appid=" ++ API_KEY.

(** Lines 64-72: the [current] object, its fields in source order. *)
Definition process_current (data : value) : result Current.t :=
  temp ← Ok data ▷ "list" ▷ "0" ▷ "main" ▷ "temp" ≫= ToNumber;
  feels_like ← Ok data ▷ "list" ▷ "0" ▷ "main" ▷ "feels_like" ≫= ToNumber;
  condition ← Ok data ▷ "list" ▷ "0" ▷ "weather" ▷ "0" ▷ "main";
  humidity ← Ok data ▷ "list" ▷ "0" ▷ "main" ▷ "humidity";
  speed ← Ok data ▷ "list" ▷ "0" ▷ "wind" ▷ "speed" ≫= ToNumber;
  pressure ← Ok data ▷ "list" ▷ "0" ▷ "main" ▷ "pressure";
  visibility ← Ok data ▷ "list" ▷ "0" ▷ "visibility" ≫= ToNumber;
  Ok {| Current.temp := Math_round temp;
        Current.feelsLike := Math_round feels_like;
        Current.condition := condition;
        Current.humidity := humidity;
        Current.windSpeed := Math_round (speed * 3.6);
        Current.pressure := pressure;
        Current.visibility := Math_round (visibility / 1000) |}.

(** Lines 84-89: the entry pushed for a selected [item]. *)
Definition forecast_entry (item : value) (date : Date) : result Entry.t :=
  temp_max ← Ok item ▷ "main" ▷ "temp_max" ≫= ToNumber;
  temp_min ← Ok item ▷ "main" ▷ "temp_min" ≫= ToNumber;
  condition ← Ok item ▷ "weather" ▷ "0" ▷ "main";
  Ok {| Entry.date := toLocaleDateString_short date;
        Entry.high := Math_round temp_max;
        Entry.low := Math_round temp_min;
        Entry.condition := condition |}.

(** Lines 78-93: the loop over the items, from the values [forecast]
    and [processedDates] have when it reaches [items]. [break] returns
    the forecast at once. *)
Fixpoint forecast_loop (items : list value) (forecast : list Entry.t)
    (processedDates : list jsstring) : result (list Entry.t) :=
  match items with
  | [] => Ok forecast
  | item :: rest =>
      dt ← Ok item ▷ "dt" ≫= ToNumber;
      let date := Date_new (dt * 1000) in
      let dateStr := toLocaleDateString date in
      if negb (Set_has processedDates dateStr) && (getHours date =? 12)%float
      then
        let processedDates := Set_add processedDates dateStr in
        entry ← forecast_entry item date;
        let forecast := forecast ++ [entry] in
        if (length forecast =? 3)%nat then Ok forecast
        else forecast_loop rest forecast processedDates
      else forecast_loop rest forecast processedDates
  end.

(** Lines 75-93: [forecast] and [processedDates] start empty. *)
Definition process_forecast (data : value) : result (list Entry.t) :=
  items ← Ok data ▷ "list" ≫= iterate;
  forecast_loop items [] [].

(** Lines 64-99: from the parsed body to the argument of [setWeather]. *)
Definition reduce (data : value) : result WeatherData.t :=
  current ← process_current data;
  forecast ← process_forecast data;
  name ← Ok data ▷ "city" ▷ "name";
  Ok {| WeatherData.city := name;
        WeatherData.current := current;
        WeatherData.forecast := forecast |}.

(** Lines 53-99: the [try] block, from the point where the promise of
    [fetch] settles. *)
Definition try_block (o : fetch_outcome) : result WeatherData.t :=
  response ← match o with Rejected e => Throw e | Resolved r => Ok r end;
  if negb (ok response) then Throw (Error (js "City not found"))
  else data ← json response; reduce data.

(** Lines 44-54: what the handler does before it waits for the
    response. *)
Definition fetchWeather_submit (st : QueryState) : list effect :=
  preventDefault ::
  if negb (truthy_string (trim (city st))) then []
  else [setLoading true; setError []; fetch (request_url (city st))].

(** Lines 95-105: what it does once the response is there. *)
Definition fetchWeather_settle (o : fetch_outcome) : list effect :=
  match try_block o with
  | Ok data => [setWeather (Some data); setLoading false]
  | Throw _ => [setError error_message; setWeather None; setLoading false]
  end.

(** One call of [fetchWeather] in state [st], on a network that answers
    the request for [url] with [network url]. *)
Definition fetchWeather (network : jsstring → fetch_outcome)
    (st : QueryState) : list effect :=
  let before := fetchWeather_submit st in
  before ++ (requests before ≫= λ url, fetchWeather_settle (network url)).
End Handler.

(* ===================================================================== *)
(** ** The samples of a well-formed response *)
(* ===================================================================== *)

(** One element of [list] in the shape the provider documents: every
    field present, numbers where numbers are expected. *)
Record WeatherSample := {
  dt : float;
  temp : float;
  feels_like : float;
  temp_max : float;
  temp_min : float;
  humidity : float;
  pressure : float;
  condition : jsstring;
  wind_speed : float;
  visibility : float;
}.

(** [item] carries the sample [s]: each path the program reads exists
    and holds the field of [s]. Further properties, and further elements
    of [weather], are allowed. *)
Record carries (item : value) (s : WeatherSample) : Prop := {
  carries_dt : Ok item ▷ "dt" = Ok (Num (dt s));
  carries_temp : Ok item ▷ "main" ▷ "temp" = Ok (Num (temp s));
  carries_feels_like : Ok item ▷ "main" ▷ "feels_like" = Ok (Num (feels_like s));
  carries_temp_max : Ok item ▷ "main" ▷ "temp_max" = Ok (Num (temp_max s));
  carries_temp_min : Ok item ▷ "main" ▷ "temp_min" = Ok (Num (temp_min s));
  carries_humidity : Ok item ▷ "main" ▷ "humidity" = Ok (Num (humidity s));
  carries_pressure : Ok item ▷ "main" ▷ "pressure" = Ok (Num (pressure s));
  carries_condition : Ok item ▷ "weather" ▷ "0" ▷ "main" = Ok (Str (condition s));
  carries_wind_speed : Ok item ▷ "wind" ▷ "speed" = Ok (Num (wind_speed s));
  carries_visibility : Ok item ▷ "visibility" = Ok (Num (visibility s));
}.

(** The JSON the provider sends for a sample. *)
Definition sample_value (s : WeatherSample) : value :=
  Obj [ (js "dt", Num (dt s));
        (js "main", Obj [ (js "temp", Num (temp s));
                          (js "feels_like", Num (feels_like s));
                          (js "temp_min", Num (temp_min s));
                          (js "temp_max", Num (temp_max s));
                          (js "pressure", Num (pressure s));
                          (js "humidity", Num (humidity s)) ]);
        (js "weather", Arr [ Obj [ (js "main", Str (condition s)) ] ]);
        (js "wind", Obj [ (js "speed", Num (wind_speed s)) ]);
        (js "visibility", Num (visibility s)) ].

(** A whole response body. *)
Definition body_value (name : jsstring) (samples : list WeatherSample) : value :=
  Obj [ (js "city", Obj [ (js "name", Str name) ]);
        (js "list", Arr (sample_value <$> samples)) ].

(* ===================================================================== *)
(** ** The reducer as the specification words it *)
(* ===================================================================== *)

Section Reducer.
Context `{Runtime}.

Definition sample_date (s : WeatherSample) : Date := Date_new (dt s * 1000).

(** The calendar date of a sample in the viewer's time zone. *)
Definition local_date (s : WeatherSample) : jsstring :=
  toLocaleDateString (sample_date s).

(** Its local hour of day is 12. *)
Definition at_noon (s : WeatherSample) : bool :=
  (getHours (sample_date s) =? 12)%float.

(** The representatives among [samples], when those of [selected] have
    been selected already: a sample is selected iff its local hour is
    12 and no sample of its date has been selected yet. *)
Fixpoint representatives_after (selected samples : list WeatherSample)
  : list WeatherSample :=
  match samples with
  | [] => []
  | s :: rest =>
      if at_noon s && negb (bool_decide (local_date s ∈ local_date <$> selected))
      then s :: representatives_after (selected ++ [s]) rest
      else representatives_after selected rest
  end.

Definition representatives (samples : list WeatherSample) : list WeatherSample :=
  representatives_after [] samples.

(** The entry of a representative. *)
Definition daily_entry (s : WeatherSample) : Entry.t :=
  {| Entry.date := toLocaleDateString_short (sample_date s);
     Entry.high := Math_round (temp_max s);
     Entry.low := Math_round (temp_min s);
     Entry.condition := Str (condition s) |}.

(** The forecast: the entries of the first three representatives. *)
Definition daily_forecast (samples : list WeatherSample) : list Entry.t :=
  daily_entry <$> take 3 (representatives samples).

(** The snapshot of one sample. *)
Definition current_conditions (s : WeatherSample) : Current.t :=
  {| Current.temp := Math_round (temp s);
     Current.feelsLike := Math_round (feels_like s);
     Current.condition := Str (condition s);
     Current.humidity := Num (humidity s);
     Current.windSpeed := Math_round (wind_speed s * 3.6);
     Current.pressure := Num (pressure s);
     Current.visibility := Math_round (visibility s / 1000) |}.
End Reducer.

(** The samples are in chronological order: no sample is followed, at any
    distance, by one with an earlier instant. *)
Definition chronological (samples : list WeatherSample) : Prop :=
  StronglySorted (λ a b, (dt a <=? dt b)%float = true) samples.

(* ===================================================================== *)
(** ** One browser: UTC, locale en-US *)
(* ===================================================================== *)

Module Browser.
#[local] Open Scope Z_scope.

Definition ms_per_day : Z := 86400000.
Definition ms_per_hour : Z := 3600000.

(** Days since the epoch, and the hour within the day. *)
Definition epoch_day (t : Z) : Z := t / ms_per_day.
Definition hour_of_day (t : Z) : Z := (t mod ms_per_day) / ms_per_hour.

(** Year, month (1-12) and day of the month of a day number, in the
    proleptic Gregorian calendar. *)
Definition civil_from_days (days : Z) : Z * Z * Z :=
  let z := days + 719468 in
  let era := z / 146097 in
  let doe := z - era * 146097 in
  let yoe := (doe - doe / 1460 + doe / 36524 - doe / 146096) / 365 in
  let doy := doe - (365 * yoe + yoe / 4 - yoe / 100) in
  let mp := (5 * doy + 2) / 153 in
  let d := doy - (153 * mp + 2) / 5 + 1 in
  let m := if mp <? 10 then mp + 3 else mp - 9 in
  let y := yoe + era * 400 + (if m <=? 2 then 1 else 0) in
  (y, m, d).

(** Day of the week, 0 for Sunday; 1 January 1970 was a Thursday. *)
Definition weekday (days : Z) : Z := (days + 4) mod 7.

Definition decimal (n : Z) : jsstring :=
  js (NilZero.string_of_uint (N.to_uint (Z.to_N n))).

Definition weekday_name (w : Z) : jsstring :=
  js (nth (Z.to_nat w) ["Sun"; "Mon"; "Tue"; "Wed"; "Thu"; "Fri"; "Sat"] "")%string.

Definition month_name (m : Z) : jsstring :=
  js (nth (Z.to_nat (m - 1))
        ["Jan"; "Feb"; "Mar"; "Apr"; "May"; "Jun";
         "Jul"; "Aug"; "Sep"; "Oct"; "Nov"; "Dec"] "")%string.

Definition utc_getHours (d : Date) : float :=
  match d with
  | None => nan
  | Some t => float_of_Z false (hour_of_day t)
  end.

(** "1/31/2026" *)
Definition utc_toLocaleDateString (d : Date) : jsstring :=
  match d with
  | None => js "Invalid Date"
  | Some t =>
      let '(y, m, d) := civil_from_days (epoch_day t) in
      decimal m ++ js "/" ++ decimal d ++ js "/" ++ decimal y
  end.

(** "Sat, Jan 31" *)
Definition utc_toLocaleDateString_short (d : Date) : jsstring :=
  match d with
  | None => js "Invalid Date"
  | Some t =>
      let '(y, m, d) := civil_from_days (epoch_day t) in
      weekday_name (weekday (epoch_day t)) ++ js ", " ++ month_name m
      ++ js " " ++ decimal d
  end.

(** A browser in the time zone UTC with the locale en-US and no API key
    configured. Its dates are those of the engine for the years 1 to
    9999. The two number conversions are not exercised by a response
    whose numeric fields are numbers, [null], booleans or absent; on
    other responses this runtime answers NaN where the engine parses. *)
#[export] Instance utc_en_US : Runtime := {|
  StringToNumber := λ _, nan;
  ObjectToNumber := λ _, Ok nan;
  getHours := utc_getHours;
  toLocaleDateString := utc_toLocaleDateString;
  toLocaleDateString_short := utc_toLocaleDateString_short;
  VITE_OPENWEATHER_API_KEY := None;
|}.

(** [toLowerCase] on the letters A to Z; other code units are kept, as
    the engine does for every string of ASCII. *)
Definition toLowerCase_ascii (s : jsstring) : jsstring :=
  (λ c, if (65 <=? c) && (c <=? 90) then c + 32 else c)%N <$> s.

(** A sample at [seconds] after the epoch; only the fields the loop
    reads vary. *)
Definition sample_at (seconds : Z) (hi lo : float) (cond : string)
  : WeatherSample :=
  {| dt := float_of_Z false seconds; temp := 21.4%float;
     feels_like := 20.5%float; temp_max := hi; temp_min := lo;
     humidity := 40%float; pressure := 1013%float; condition := js cond;
     wind_speed := 2.5%float; visibility := 10000%float |}.

(** Three days of samples, one every three hours from midnight. *)
Definition three_days : list WeatherSample :=
  (λ k, sample_at (Z.of_nat k * 10800) 20.6%float 10.4%float "Clouds")
    <$> seq 0 24.

(** Samples every three hours that never fall on 12:00. *)
Definition off_noon : list WeatherSample :=
  (λ k, sample_at (3600 + Z.of_nat k * 10800) 20.6%float 10.4%float "Clear")
    <$> seq 0 16.

(** Noon of 2 January 1970, then noon of 1 January 1970. *)
Definition reversed_days : list WeatherSample :=
  [ sample_at 129600 8.2%float 1.7%float "Snow";
    sample_at 43200 9.5%float 3.1%float "Rain" ].

(** The state after "Paris" was typed into a fresh application. *)
Definition paris : QueryState := run initial [setCity (js "Paris")].

(** Networks that answer every request alike. *)
Definition not_found : jsstring → fetch_outcome :=
  λ _, Resolved {| status := 404; json := Throw SyntaxError |}.

Definition answers (data : value) : jsstring → fetch_outcome :=
  λ _, Resolved {| status := 200; json := Ok data |}.

(** A sample as the provider sends it, without its [weather] field. *)
Definition without_weather (s : WeatherSample) : value :=
  Obj [ (js "dt", Num (dt s));
        (js "main", Obj [ (js "temp", Num (temp s));
                          (js "feels_like", Num (feels_like s));
                          (js "temp_min", Num (temp_min s));
                          (js "temp_max", Num (temp_max s));
                          (js "pressure", Num (pressure s));
                          (js "humidity", Num (humidity s)) ]);
        (js "wind", Obj [ (js "speed", Num (wind_speed s)) ]);
        (js "visibility", Num (visibility s)) ].

(** A body whose first entry lacks [weather]. *)
Definition first_without_weather : value :=
  Obj [ (js "city", Obj [ (js "name", Str (js "Paris")) ]);
        (js "list", Arr (without_weather (sample_at 0 20.6%float 10.4%float "Clouds")
                         :: (sample_value <$> three_days))) ].

(** A body whose entry for 03:00 lacks [weather]; the loop selects
    noon samples only and never reads that entry's [weather]. *)
Definition unread_without_weather : value :=
  Obj [ (js "city", Obj [ (js "name", Str (js "Paris")) ]);
        (js "list", Arr [ sample_value (sample_at 0 20.6%float 10.4%float "Clouds");
                          without_weather (sample_at 10800 20.6%float 10.4%float "Clouds") ]) ].

(** Midnight and noon of 1 January 1970. *)
Definition two_samples : list WeatherSample :=
  [ sample_at 0 3.4%float 1.2%float "Clear";
    sample_at 43200 9.5%float 3.1%float "Rain" ].

(** The body with the further properties the provider sends. *)
Definition annotated_body (name : jsstring) (samples : list WeatherSample)
  : value :=
  Obj [ (js "cod", Str (js "200"));
        (js "message", Num 0);
        (js "cnt", Num (float_of_Z false (Z.of_nat (length samples))));
        (js "list", Arr (sample_value <$> samples));
        (js "city", Obj [ (js "id", Num 2988507%float);
                          (js "name", Str name);
                          (js "country", Str (js "FR")) ]) ].

(** The three days followed by an entry that is [null]; reading a
    property of it would throw. *)
Definition three_days_then_null : value :=
  Obj [ (js "city", Obj [ (js "name", Str (js "Paris")) ]);
        (js "list", Arr ((sample_value <$> three_days) ++ [Null])) ].

(** The state in which the result for [three_days] is shown. *)
Definition shown : QueryState :=
  run paris (fetchWeather (answers (body_value (js "Paris") three_days)) paris).
End Browser.

(* ===================================================================== *)
(** ** Predicates on strings and states *)
(* ===================================================================== *)

(** Empty or all white space. *)
Definition blank (s : jsstring) : Prop := Forall (λ c, is_white_space c = true) s.

(** The state every failed request ends in: the message, no result, not
    loading; only the text field is kept. *)
Definition failed (st : QueryState) : QueryState :=
  {| city := city st; weather := None; loading := false;
     error := error_message |}.

(** In-flight excludes a last error and a last result. *)
Definition exclusive (st : QueryState) : Prop :=
  loading st = true → error st = [] ∧ weather st = None.

(** In-flight excludes a last error. *)
Definition error_exclusive (st : QueryState) : Prop :=
  loading st = true → error st = [].

Section WeatherMissing.
Context `{Runtime}.


End WeatherMissing.

(* ===================================================================== *)
(** ** What [App] renders *)
(* ===================================================================== *)

(** One card of the forecast grid (lines 201-224): the values the markup
    of a day shows. *)
Module ForecastCard.
Record t := {
  date : jsstring;
  glyph : icon;
  condition : value;
  high : float;
  low : float;
}.
End ForecastCard.

(** The current-weather card and the grid below it (lines 143-226). *)
Module WeatherCard.
Record t := {
  city : value;
  glyph : icon;
  temp : float;
  condition : value;
  feelsLike : float;
  humidity : value;
  windSpeed : float;
  pressure : value;
  visibility : float;
  forecast : list ForecastCard.t;
}.
End WeatherCard.

(** The parts of the page that depend on the state (lines 117-232): the
    text field, the button, the error banner, the weather card and the
    hint. Class names and fixed texts are left out. *)
Module View.
Record t := {
  value : jsstring;
  disabled : bool;
  label : jsstring;
  error : option jsstring;
  weather : option WeatherCard.t;
  hint : bool;
}.
End View.

Section Render.
(** [String.prototype.toLowerCase] *)
Variable toLowerCase : jsstring → jsstring.
(** The message of the [Error] React throws for an object among the
    children of an element ("Objects are not valid as a React child
    ..."); its wording is React's. *)
Variable invalid_child : value → jsstring.

(** [{v}] among the children of an element, for a value of the parsed
    body: strings and numbers become text, booleans, [null] and
    [undefined] render nothing, an array renders its elements in order,
    and an object (a parsed object is no element) makes React throw. *)
Fixpoint render_child (v : value) : result () :=
  match v with
  | Obj _ => Throw (Error (invalid_child v))
  | Arr elements =>
      (fix render_children (l : list value) : result () :=
         match l with
         | [] => Ok ()
         | x :: rest => render_child x ;; render_children rest
         end) elements
  | _ => Ok ()
  end.

(** [<WeatherIcon condition={v} />] for the value the state holds:
    [condition.toLowerCase()] is a call of a method only strings have
    (no value of a parsed body is a function), so every other value
    throws a [TypeError]. *)
Definition WeatherIcon_element (condition : value) : result icon :=
  match condition with
  | Str s => Ok (WeatherIcon toLowerCase s)
  | _ => Throw TypeError
  end.

(** Lines 201-224: the card of one [day], in the order React renders
    it: the icon (line 212), then the condition as text (line 215). The
    date is a string and [high] and [low] are numbers. *)
Definition forecast_card (day : Entry.t) : result ForecastCard.t :=
  glyph ← WeatherIcon_element (Entry.condition day);
  render_child (Entry.condition day) ;;
  Ok {| ForecastCard.date := Entry.date day;
        ForecastCard.glyph := glyph;
        ForecastCard.condition := Entry.condition day;
        ForecastCard.high := Entry.high day;
        ForecastCard.low := Entry.low day |}.

(** Lines 143-226: the block rendered when [weather] is not [null], in
    the order React renders it: the city (line 146), the icon (line 150),
    the condition (line 155), humidity (line 171) and pressure (line
    185), then the forecast cards. The other children are numbers. *)
Definition weather_card (weather : WeatherData.t) : result WeatherCard.t :=
  render_child (WeatherData.city weather) ;;
  glyph ← WeatherIcon_element (Current.condition (WeatherData.current weather));
  render_child (Current.condition (WeatherData.current weather)) ;;
  render_child (Current.humidity (WeatherData.current weather)) ;;
  render_child (Current.pressure (WeatherData.current weather)) ;;
  days ← mapM forecast_card (WeatherData.forecast weather);
  Ok {| WeatherCard.city := WeatherData.city weather;
        WeatherCard.glyph := glyph;
        WeatherCard.temp := Current.temp (WeatherData.current weather);
        WeatherCard.condition := Current.condition (WeatherData.current weather);
        WeatherCard.feelsLike := Current.feelsLike (WeatherData.current weather);
        WeatherCard.humidity := Current.humidity (WeatherData.current weather);
        WeatherCard.windSpeed := Current.windSpeed (WeatherData.current weather);
        WeatherCard.pressure := Current.pressure (WeatherData.current weather);
        WeatherCard.visibility := Current.visibility (WeatherData.current weather);
        WeatherCard.forecast := days |}.

(** Lines 108-236: the page for a state; it throws when the weather
    card does. *)
Definition App_render (st : QueryState) : result View.t :=
  card ← match weather st with
         | None => Ok None
         | Some data => c ← weather_card data; Ok (Some c)
         end;
  Ok {| View.value := city st;
        View.disabled := loading st;
        View.label := if loading st then js "Loading..." else js "Search";
        View.error := if truthy_string (error st) then Some (error st) else None;
        View.weather := card;
        View.hint := negb (bool_decide (is_Some (weather st)))
                     && negb (loading st) && negb (truthy_string (error st)) |}.
End Render.

(* ===================================================================== *)
(** ** The page in use *)
(* ===================================================================== *)

(** The state together with the requests that are in flight, oldest
    first. *)
Record Page := {
  state : QueryState;
  pending : list jsstring;
}.

(** What can happen to the page: the text field changes (line 120), a key
    is pressed in it (line 121), the button is clicked (line 126), or the
    request at position [i] of [pending] settles. *)
Inductive event :=
  | Change (text : jsstring)
  | KeyPress (key : jsstring)
  | Click
  | Settled (i : nat) (o : fetch_outcome).

(** The page a fresh [App] shows. *)
Definition start : Page := {| state := initial; pending := [] |}.

(** A handler ran: its updates are applied, its requests are in flight. *)
Definition issue (page : Page) (effects : list effect) : Page :=
  {| state := run (state page) effects;
     pending := pending page ++ requests effects |}.

Section Events.
Context `{Runtime}.

(** One event. The key handler calls [fetchWeather] for "Enter" only; the
    button is [disabled] while [loading], and a disabled button receives
    no click; a response runs the rest of the call that awaits it. *)
Definition dispatch (page : Page) (ev : event) : Page :=
  match ev with
  | Change text => issue page [setCity text]
  | KeyPress key =>
      if bool_decide (key = js "Enter")
      then issue page (fetchWeather_submit (state page))
      else page
  | Click =>
      if loading (state page) then page
      else issue page (fetchWeather_submit (state page))
  | Settled i o =>
      match pending page !! i with
      | Some _ =>
          {| state := run (state page) (fetchWeather_settle o);
             pending := delete i (pending page) |}
      | None => page
      end
  end.

(** The page after a run of events from the start. *)
Definition after (events : list event) : Page := foldl dispatch start events.
End Events.

(** A value that is not an array or object. *)
Definition primitive (v : value) : bool :=
  match v with Arr _ | Obj _ => false | _ => true end.

Section PrimitiveNumber.
Context `{Runtime}.

(** [ToNumber] of such a value, which never throws. *)
Definition primitive_number (v : value) : float :=
  match v with
  | Undefined => nan
  | Null => 0%float
  | Bool b => if b then 1%float else 0%float
  | Num x => x
  | Str s => StringToNumber s
  | Arr _ | Obj _ => nan
  end.
End PrimitiveNumber.

(** A property chain arrives at something properties can be read of:
    neither an exception nor [undefined] nor [null]. *)
Definition readable (r : result value) : Prop :=
  ∃ v, r = Ok v ∧ v ≠ Undefined ∧ v ≠ Null.

(** No press of the Enter key among the events. *)
Definition button_only (events : list event) : Prop :=
  Forall (λ ev, ev ≠ KeyPress (js "Enter")) events.

(** With the button alone requests never overlap, the flag is on exactly
    while the one request is in flight, and an error is never beside a
    result. *)
Definition orderly (page : Page) : Prop :=
  length (pending page) ≤ 1 ∧
  (loading (state page) = true ↔ pending page ≠ []) ∧
  (loading (state page) = true → error (state page) = []) ∧
  (error (state page) ≠ [] → weather (state page) = None).

(* ===================================================================== *)
(** ** Scenarios for the page *)
(* ===================================================================== *)

Module Scenarios.
Import Browser.

(** A first entry whose [main], [weather[0]] and [wind] are there but
    empty, and which has no [dt] and no [visibility]. *)
Definition bare_body : value :=
  Obj [ (js "city", Obj [ (js "name", Str (js "Paris")) ]);
        (js "list", Arr [ Obj [ (js "main", Obj []);
                                (js "weather", Arr [ Obj [] ]);
                                (js "wind", Obj []) ] ]) ].

(** A sample as the provider sends it, but for the [main] of its
    [weather[0]]. *)
Definition without_condition (s : WeatherSample) : value :=
  Obj [ (js "dt", Num (dt s));
        (js "main", Obj [ (js "temp", Num (temp s));
                          (js "feels_like", Num (feels_like s));
                          (js "temp_min", Num (temp_min s));
                          (js "temp_max", Num (temp_max s));
                          (js "pressure", Num (pressure s));
                          (js "humidity", Num (humidity s)) ]);
        (js "weather", Arr [ Obj [ (js "id", Num 800%float) ] ]);
        (js "wind", Obj [ (js "speed", Num (wind_speed s)) ]);
        (js "visibility", Num (visibility s)) ].

Definition body_without_condition : value :=
  Obj [ (js "city", Obj [ (js "name", Str (js "Paris")) ]);
        (js "list", Arr [ without_condition (sample_at 0 3.4%float 1.2%float "Clear") ]) ].

(** What [body_without_condition] reduces to. *)
Definition result_without_condition : WeatherData.t :=
  {| WeatherData.city := Str (js "Paris");
     WeatherData.current :=
       {| Current.temp := 21%float; Current.feelsLike := 21%float;
          Current.condition := Undefined; Current.humidity := Num 40%float;
          Current.windSpeed := 9%float; Current.pressure := Num 1013%float;
          Current.visibility := 10%float |};
     WeatherData.forecast := [] |}.

(** What the body of [two_samples] reduces to. *)
Definition two_samples_result : WeatherData.t :=
  {| WeatherData.city := Str (js "Paris");
     WeatherData.current := current_conditions (sample_at 0 3.4%float 1.2%float "Clear");
     WeatherData.forecast := daily_forecast two_samples |}.

(** Two samples before noon. *)
Definition morning : list WeatherSample :=
  [ sample_at 3600 3.4%float 1.2%float "Clear";
    sample_at 14400 5.1%float 1.2%float "Clouds" ].

(** A network that is down. *)
Definition unreachable : jsstring → fetch_outcome := λ _, Rejected TypeError.

(** The user types "Paris" and clicks the button. *)
Definition typed_and_clicked : list event := [Change (js "Paris"); Click].

(** The page while that request is in flight. *)
Definition loading_view : View.t :=
  {| View.value := js "Paris"; View.disabled := true;
     View.label := js "Loading..."; View.error := None;
     View.weather := None; View.hint := false |}.


(** The start of the message React gives for an object child. *)
Definition invalid_child : value → jsstring :=
  λ _, js "Objects are not valid as a React child".

(** The page of a fresh application. *)
Definition initial_view : View.t :=
  {| View.value := []; View.disabled := false; View.label := js "Search";
     View.error := None; View.weather := None; View.hint := true |}.
End Scenarios.

(* ===================================================================== *)
(** ** Facts about strings *)
(* ===================================================================== *)

Lemma startsWith_spec s p : startsWith s p = true ↔ ∃ post, s = p ++ post.
Proof.
  revert s. induction p as [|c p IH]; intros s; simpl.
  - split; [intros _; by exists s | reflexivity].
  - destruct s as [|d s].
    + split; [discriminate | intros [post H]; discriminate].
    + rewrite andb_true_iff, N.eqb_eq, IH. split.
      * intros [-> [post ->]]. by exists post.
      * intros [post H]. injection H as -> ->. eauto.
Qed.

Lemma includes_spec s p : includes s p = true ↔ contains s p.
Proof.
  unfold contains. induction s as [|d s IH]; simpl.
  - rewrite orb_false_r, startsWith_spec. split.
    + intros [post H]. by exists [], post.
    + intros [pre [post H]]. symmetry in H.
      apply app_eq_nil in H as [-> H]. apply app_eq_nil in H as [-> ->].
      by exists [].
  - rewrite orb_true_iff, startsWith_spec, IH. split.
    + intros [[post H] | [pre [post H]]].
      * by exists [], post.
      * exists (d :: pre), post. by rewrite H.
    + intros [[|e pre] [post H]].
      * left. by exists post.
      * right. injection H as -> ->. eauto.
Qed.

Lemma includes_false s p : includes s p = false ↔ ¬ contains s p.
Proof. rewrite <- includes_spec. by destruct (includes s p). Qed.

(* ===================================================================== *)
(** ** WeatherIcon *)
(* ===================================================================== *)

Section IconFacts.
Variable toLowerCase : jsstring → jsstring.

(** C10: [WeatherIcon] is total and its result is decided by the
    lowercased condition in a fixed precedence: the rain icon exactly
    when it contains "rain" or "drizzle"; otherwise the cloud icon
    exactly when it contains "cloud"; otherwise the snow icon exactly
    when it contains "snow"; otherwise the sun icon. *)
Theorem WeatherIcon_precedence (condition : jsstring) :
  let lower := toLowerCase condition in
  let rainy := contains lower (js "rain") ∨ contains lower (js "drizzle") in
  let cloudy := contains lower (js "cloud") in
  let snowy := contains lower (js "snow") in
  (WeatherIcon toLowerCase condition = CloudRain ↔ rainy) ∧
  (WeatherIcon toLowerCase condition = Cloud ↔ ¬ rainy ∧ cloudy) ∧
  (WeatherIcon toLowerCase condition = CloudSnow ↔
     ¬ rainy ∧ ¬ cloudy ∧ snowy) ∧
  (WeatherIcon toLowerCase condition = Sun ↔
     ¬ rainy ∧ ¬ cloudy ∧ ¬ snowy).
Proof.
  intros lower rainy cloudy snowy. unfold WeatherIcon. fold lower.
  assert (Hr : rainy ↔
    includes lower (js "rain") || includes lower (js "drizzle") = true).
  { unfold rainy. by rewrite orb_true_iff, !includes_spec. }
  assert (Hc : cloudy ↔ includes lower (js "cloud") = true).
  { unfold cloudy. by rewrite includes_spec. }
  assert (Hs : snowy ↔ includes lower (js "snow") = true).
  { unfold snowy. by rewrite includes_spec. }
  rewrite Hr, Hc, Hs. clear Hr Hc Hs.
  destruct (includes lower (js "rain") || includes lower (js "drizzle")),
    (includes lower (js "cloud")), (includes lower (js "snow"));
    intuition (discriminate || congruence).
Qed.
End IconFacts.

(* ===================================================================== *)
(** ** Facts about numbers *)
(* ===================================================================== *)

(** [round_half_up v k] is the integer [n] with
    [n - 1/2 <= v / 2^k < n + 1/2]. *)
Lemma round_half_up_nearest (v k : Z) :
  (0 ≤ k)%Z →
  let n := round_half_up v k in
  (2 ^ k * (2 * n - 1) ≤ 2 * v < 2 ^ k * (2 * n + 1))%Z.
Proof.
  intros Hk n. unfold round_half_up in n.
  assert (Hpos : (0 < 2 ^ k)%Z) by (apply Z.pow_pos_nonneg; lia).
  assert (Hpow : (2 ^ (k + 1) = 2 * 2 ^ k)%Z) by (rewrite Z.pow_add_r; lia).
  pose proof (Z.div_mod (2 * v + 2 ^ k) (2 ^ (k + 1)) ltac:(lia)) as Hdm.
  pose proof (Z.mod_pos_bound (2 * v + 2 ^ k) (2 ^ (k + 1)) ltac:(lia)) as Hm.
  fold n in Hdm. rewrite Hpow in Hdm, Hm. nia.
Qed.

(** [Math.round] of a number that is not integral: the nearest integer,
    ties towards +infinity. *)
Lemma Math_round_nearest (x : float) s m e :
  Prim2SF x = S754_finite s m e →
  (e < 0)%Z →
  let v := if s then Zneg m else Zpos m in
  ∃ n, Math_round x = float_of_Z s n ∧
       (2 ^ (- e) * (2 * n - 1) ≤ 2 * v < 2 ^ (- e) * (2 * n + 1))%Z.
Proof.
  intros Hx He v. exists (round_half_up v (- e)). split.
  - unfold Math_round. rewrite Hx.
    destruct (Z.leb_spec 0 e); [lia|done].
  - apply round_half_up_nearest. lia.
Qed.

(** An integer is its own rounding. *)
Lemma round_half_up_integer (n k : Z) :
  (0 ≤ k)%Z → round_half_up (n * 2 ^ k) k = n.
Proof.
  intros Hk. unfold round_half_up.
  assert (Hpos : (0 < 2 ^ k)%Z) by (apply Z.pow_pos_nonneg; lia).
  rewrite Z.pow_add_r, Z.pow_1_r by lia.
  replace (2 * (n * 2 ^ k) + 2 ^ k)%Z with (2 ^ k + n * (2 ^ k * 2))%Z by lia.
  rewrite Z.div_add by lia. rewrite Z.div_small by lia. lia.
Qed.

(* ===================================================================== *)
(** ** Facts about the submission guard *)
(* ===================================================================== *)

Lemma trimStart_nil_iff s : trimStart s = [] ↔ blank s.
Proof.
  unfold blank. induction s as [|c s IH]; simpl.
  - split; [constructor | done].
  - destruct (is_white_space c) eqn:Hc.
    + rewrite IH. split; [by constructor | by inversion 1].
    + split; [done | inversion 1; congruence].
Qed.

Lemma trimStart_head s c s' : trimStart s = c :: s' → is_white_space c = false.
Proof.
  induction s as [|d s IH]; simpl; [done|].
  destruct (is_white_space d) eqn:Hd; [done|].
  intros [= -> _]. done.
Qed.

(** The trimmed string is empty exactly when the string is empty or all
    white space. *)
Lemma trim_nil_iff s : trim s = [] ↔ blank s.
Proof.
  unfold trim, trimEnd. split.
  - intros Ht. apply trimStart_nil_iff.
    apply (f_equal reverse) in Ht. rewrite reverse_involutive in Ht.
    apply trimStart_nil_iff in Ht. unfold blank in Ht.
    rewrite Forall_reverse in Ht.
    destruct (trimStart s) as [|c s'] eqn:Hs; [done|].
    apply trimStart_head in Hs. apply Forall_cons_1 in Ht as [Hc _].
    simpl in Hc. congruence.
  - intros Hb. apply trimStart_nil_iff in Hb. by rewrite Hb.
Qed.

(* ===================================================================== *)
(** ** Facts about the handler *)
(* ===================================================================== *)

Section HandlerFacts.
Context `{Runtime}.

Lemma submit_blank st :
  trim (city st) = [] → fetchWeather_submit st = [preventDefault].
Proof. unfold fetchWeather_submit. by intros ->. Qed.

Lemma submit_nonblank st :
  truthy_string (trim (city st)) = true →
  fetchWeather_submit st =
    [preventDefault; setLoading true; setError [];
     fetch (request_url (city st))].
Proof.
  unfold fetchWeather_submit. by intros ->.
Qed.

Lemma fetchWeather_nonblank network st :
  truthy_string (trim (city st)) = true →
  fetchWeather network st =
    [preventDefault; setLoading true; setError [];
     fetch (request_url (city st))]
    ++ fetchWeather_settle (network (request_url (city st))).
Proof.
  intros Hc. unfold fetchWeather. rewrite (submit_nonblank _ Hc).
  simpl. by rewrite app_nil_r.
Qed.

(** The [catch] block and the [finally] block, whatever was thrown. *)
Lemma settle_Throw o e :
  try_block o = Throw e →
  fetchWeather_settle o =
    [setError error_message; setWeather None; setLoading false].
Proof. unfold fetchWeather_settle. by intros ->. Qed.

Lemma settle_Ok o data :
  try_block o = Ok data →
  fetchWeather_settle o = [setWeather (Some data); setLoading false].
Proof. unfold fetchWeather_settle. by intros ->. Qed.

Lemma run_settle_Throw o e st :
  try_block o = Throw e → run st (fetchWeather_settle o) = failed st.
Proof. intros Ht. by rewrite (settle_Throw _ _ Ht). Qed.

Lemma run_app st e1 e2 : run st (e1 ++ e2) = run (run st e1) e2.
Proof. apply foldl_app. Qed.

(** A failing request started in [st] ends in [failed st]. *)
Lemma fetchWeather_Throw network st e :
  truthy_string (trim (city st)) = true →
  try_block (network (request_url (city st))) = Throw e →
  run st (fetchWeather network st) = failed st.
Proof.
  intros Hc Ht. rewrite (fetchWeather_nonblank _ _ Hc), run_app.
  by rewrite (run_settle_Throw _ _ _ Ht).
Qed.

(** A response without success status is refused before its body is
    read. *)
Lemma try_block_not_ok r :
  ok r = false → try_block (Resolved r) = Throw (Error (js "City not found")).
Proof. unfold try_block. simpl. by intros ->. Qed.

(** C5: when the provider answers a submission with a status outside
    200-299, the handler leaves the fixed message as the error, no
    result, and the loading flag off. *)
Theorem fetchWeather_provider_error network st r :
  truthy_string (trim (city st)) = true →
  network (request_url (city st)) = Resolved r →
  ok r = false →
  let final := run st (fetchWeather network st) in
  error final = error_message ∧ weather final = None ∧ loading final = false.
Proof.
  intros Hc Hn Hr final. unfold final.
  rewrite (fetchWeather_Throw network st (Error (js "City not found")) Hc).
  - done.
  - rewrite Hn. by apply try_block_not_ok.
Qed.

(** C7: with a text field that is empty or all white space the handler
    stops at the guard: its only effect is [preventDefault], so no
    request is issued and no cell of the state changes. *)
Theorem fetchWeather_blank_city network st :
  blank (city st) →
  fetchWeather network st = [preventDefault] ∧
  requests (fetchWeather network st) = [] ∧
  run st (fetchWeather network st) = st.
Proof.
  intros Hb. apply trim_nil_iff in Hb.
  assert (Hf : fetchWeather network st = [preventDefault]).
  { unfold fetchWeather. by rewrite (submit_blank _ Hb). }
  rewrite Hf. by destruct st.
Qed.

(** Reading [data.list[0].main] of an empty list throws. *)
Lemma reduce_empty_list data :
  Ok data ▷ "list" = Ok (Arr []) → reduce data = Throw TypeError.
Proof.
  intros Hl. unfold reduce, process_current. by rewrite Hl.
Qed.

(** C9: a response with success status whose [list] is an empty array
    makes [data.list[0].main] throw inside the [try] block; the handler
    ends as for every other failure: the message as the error, no
    result, loading off. *)
Theorem fetchWeather_empty_list network st r data :
  truthy_string (trim (city st)) = true →
  network (request_url (city st)) = Resolved r →
  ok r = true →
  json r = Ok data →
  Ok data ▷ "list" = Ok (Arr []) →
  try_block (Resolved r) = Throw TypeError ∧
  let final := run st (fetchWeather network st) in
  error final = error_message ∧ weather final = None ∧ loading final = false.
Proof.
  intros Hc Hn Hr Hj Hl.
  assert (Ht : try_block (Resolved r) = Throw TypeError).
  { unfold try_block. simpl. rewrite Hr, Hj. simpl.
    by apply reduce_empty_list. }
  split; [done|]. intros final. unfold final.
  rewrite (fetchWeather_Throw network st TypeError Hc); [done|].
  by rewrite Hn.
Qed.
End HandlerFacts.

(* ===================================================================== *)
(** ** Facts about the reducer *)
(* ===================================================================== *)

Lemma sample_value_carries s : carries (sample_value s) s.
Proof. by split. Qed.

Lemma Forall2_sample_value_carries samples :
  Forall2 carries (sample_value <$> samples) samples.
Proof. induction samples; constructor; auto using sample_value_carries. Qed.

Section ReducerFacts.
Context `{Runtime}.

Lemma forecast_entry_carries item s :
  carries item s →
  forecast_entry item (sample_date s) = Ok (daily_entry s).
Proof.
  intros Hc. unfold forecast_entry.
  rewrite (carries_temp_max _ _ Hc), (carries_temp_min _ _ Hc),
    (carries_condition _ _ Hc).
  done.
Qed.

(** The loop, entered with fewer than three entries and with the dates
    of [selected] in [processedDates], appends the entries of the next
    representatives. It returns as soon as there are three, without
    reading what follows; otherwise it goes on to the items after the
    well-formed ones. *)
Lemma forecast_loop_carries items samples unread :
  Forall2 carries items samples →
  ∀ forecast selected,
    length forecast < 3 →
    forecast_loop (items ++ unread) forecast (local_date <$> selected) =
      let chosen := representatives_after selected samples in
      if decide (3 ≤ length forecast + length chosen)
      then Ok (forecast ++ (daily_entry <$> take (3 - length forecast) chosen))
      else forecast_loop unread (forecast ++ (daily_entry <$> chosen))
             (local_date <$> (selected ++ chosen)).
Proof.
  induction 1 as [|item s items samples Hc _ IH]; intros forecast selected Hlen.
  - cbn [app representatives_after length fmap list_fmap].
    rewrite !app_nil_r. case_decide; [exfalso; lia|done].
  - cbn [app forecast_loop representatives_after].
    rewrite (carries_dt _ _ Hc). cbn [mbind result_bind ToNumber].
    fold (sample_date s). fold (local_date s). unfold Set_add, Set_has.
    fold (at_noon s). rewrite andb_comm.
    destruct (at_noon s && negb (bool_decide
                (local_date s ∈ local_date <$> selected))) eqn:Hsel.
    + apply andb_true_iff in Hsel as [_ Hnew].
      apply negb_true_iff in Hnew. rewrite Hnew. clear Hnew.
      rewrite (forecast_entry_carries _ _ Hc). cbn [mbind result_bind].
      rewrite length_app. cbn [length].
      destruct (Nat.eqb_spec (length forecast + 1) 3) as [H3|H3].
      * replace (3 - length forecast) with 1 by lia.
        cbn zeta. case_decide; [done|exfalso; lia].
      * replace ((local_date <$> selected) ++ [local_date s])
          with (local_date <$> (selected ++ [s])) by (by rewrite fmap_app).
        rewrite IH by (rewrite length_app; simpl; lia).
        cbn zeta. rewrite length_app. cbn [length].
        replace (3 - length forecast) with (S (3 - (length forecast + 1))) by lia.
        cbn [take fmap list_fmap]. rewrite <- !(assoc_L (++)). cbn [app].
        repeat case_decide; try (exfalso; lia); done.
    + by apply IH.
Qed.

(** Selection never looks ahead: the representatives of a prefix stay,
    and the scan goes on from them. *)
Lemma representatives_after_app selected before after :
  representatives_after selected (before ++ after) =
    representatives_after selected before ++
    representatives_after (selected ++ representatives_after selected before) after.
Proof.
  revert selected. induction before as [|s before IH]; intros selected.
  - by rewrite app_nil_r.
  - cbn [app representatives_after].
    destruct (at_noon s && _).
    + rewrite IH. cbn [app]. by rewrite <- app_assoc.
    + apply IH.
Qed.

Lemma representatives_after_sublist selected samples :
  representatives_after selected samples `sublist_of` samples.
Proof.
  revert selected. induction samples as [|s samples IH]; intros selected.
  - done.
  - cbn [representatives_after]. destruct (at_noon s && _).
    + by apply sublist_skip.
    + by apply sublist_cons.
Qed.

Lemma representatives_after_NoDup selected samples :
  NoDup (local_date <$> selected) →
  NoDup (local_date <$> (selected ++ representatives_after selected samples)).
Proof.
  revert selected. induction samples as [|s samples IH]; intros selected Hnd.
  - cbn [representatives_after]. by rewrite app_nil_r.
  - cbn [representatives_after].
    destruct (at_noon s && _) eqn:Hsel; [|by apply IH].
    apply andb_true_iff in Hsel as [_ Hnew].
    apply negb_true_iff, bool_decide_eq_false in Hnew.
    rewrite cons_middle, (assoc_L (++) selected [s]). apply IH.
    rewrite fmap_app. apply NoDup_app. split; [done|]. split.
    + intros x Hx Hx'. apply list_elem_of_singleton in Hx' as ->. done.
    + apply NoDup_singleton.
Qed.

Lemma representatives_after_at_noon selected samples :
  Forall (λ s, at_noon s = true) (representatives_after selected samples).
Proof.
  revert selected. induction samples as [|s samples IH]; intros selected.
  - constructor.
  - cbn [representatives_after]. destruct (at_noon s && _) eqn:Hsel; [|done].
    apply andb_true_iff in Hsel as [Hn _]. by constructor.
Qed.
End ReducerFacts.

Lemma StronglySorted_sublist {A} (R : relation A) (l k : list A) :
  l `sublist_of` k → StronglySorted R k → StronglySorted R l.
Proof.
  induction 1 as [|x l k Hs IH|x l k Hs IH]; intros Hk.
  - constructor.
  - apply StronglySorted_inv in Hk as [Hk Hx]. constructor; [by apply IH|].
    rewrite Forall_forall in *. intros y Hy. apply Hx.
    by apply (sublist_subseteq _ _ Hs).
  - apply StronglySorted_inv in Hk as [Hk _]. by apply IH.
Qed.

Section ReducerTheorems.
Context `{Runtime}.

(** Whatever the items are, a loop that is entered with fewer than three
    entries ends with at most three. *)
Lemma forecast_loop_length items :
  ∀ forecast processedDates result,
    length forecast < 3 →
    forecast_loop items forecast processedDates = Ok result →
    length result ≤ 3.
Proof.
  induction items as [|item items IH]; intros forecast processedDates result Hlen;
    cbn [forecast_loop].
  - intros [= <-]. lia.
  - destruct (Ok item ▷ "dt" ≫= ToNumber) as [x|e]; [|done].
    cbn [mbind result_bind].
    destruct (negb _ && _); [|by apply IH].
    destruct (forecast_entry item _) as [entry|e]; [|done].
    cbn [mbind result_bind].
    destruct (Nat.eqb_spec (length (forecast ++ [entry])) 3) as [H3|H3].
    + intros [= <-]. lia.
    + apply IH. rewrite length_app in *. simpl in *. lia.
Qed.

Lemma process_forecast_carries data items samples unread :
  Ok data ▷ "list" = Ok (Arr (items ++ unread)) →
  Forall2 carries items samples →
  unread = [] ∨ 3 ≤ length (representatives samples) →
  process_forecast data = Ok (daily_forecast samples).
Proof.
  intros Hl Hc Hstop. unfold process_forecast. rewrite Hl.
  cbn [mbind result_bind iterate].
  change (forecast_loop (items ++ unread) [] [])
    with (forecast_loop (items ++ unread) [] (local_date <$> [])).
  rewrite (forecast_loop_carries _ _ _ Hc) by (simpl; lia).
  cbn zeta. cbn [length]. fold (representatives samples).
  case_decide as Hthree; [done|].
  destruct Hstop as [->|?]; [|exfalso; lia]. cbn [forecast_loop].
  unfold daily_forecast. rewrite take_ge by lia. done.
Qed.

Lemma process_current_carries data item rest s :
  Ok data ▷ "list" = Ok (Arr (item :: rest)) →
  carries item s →
  process_current data = Ok (current_conditions s).
Proof.
  intros Hl Hc. unfold process_current. rewrite Hl.
  change (Ok (Arr (item :: rest)) ▷ "0") with (Ok item).
  rewrite (carries_temp _ _ Hc), (carries_feels_like _ _ Hc),
    (carries_condition _ _ Hc), (carries_humidity _ _ Hc),
    (carries_wind_speed _ _ Hc), (carries_pressure _ _ Hc),
    (carries_visibility _ _ Hc).
  done.
Qed.

(** A well-formed body reduces to the snapshot of its first sample and
    the forecast of its samples. *)
Lemma reduce_carries data item rest s samples name :
  Ok data ▷ "list" = Ok (Arr (item :: rest)) →
  Forall2 carries (item :: rest) (s :: samples) →
  Ok data ▷ "city" ▷ "name" = Ok name →
  reduce data =
    Ok {| WeatherData.city := name;
          WeatherData.current := current_conditions s;
          WeatherData.forecast := daily_forecast (s :: samples) |}.
Proof.
  intros Hl Hc Hn. unfold reduce.
  rewrite (process_current_carries _ _ _ s Hl)
    by (by apply Forall2_cons_1 in Hc as [? _]).
  rewrite (process_forecast_carries data (item :: rest) (s :: samples) []),
    Hn; [done| |done|by left].
  by rewrite app_nil_r.
Qed.

(** C1: on a list of well-formed samples the loop produces the entries
    of the first three representatives, in scan order, each with the
    short date label, the rounded [temp_max] and [temp_min] and the
    condition as it came. The scan stops at the third entry: whatever
    follows the samples that gave it ([unread], any values at all) is
    not read. A sample scanned after [before] is selected exactly when
    its local hour is 12 and no representative among [before] has its
    local date, and samples that follow never change what was
    selected. *)
Theorem process_forecast_selects_noon_representatives
    data items samples unread :
  Ok data ▷ "list" = Ok (Arr (items ++ unread)) →
  Forall2 carries items samples →
  unread = [] ∨ 3 ≤ length (representatives samples) →
  process_forecast data =
    Ok ((λ s, {| Entry.date := toLocaleDateString_short (Date_new (dt s * 1000));
                 Entry.high := Math_round (temp_max s);
                 Entry.low := Math_round (temp_min s);
                 Entry.condition := Str (condition s) |})
        <$> take 3 (representatives samples)) ∧
  (∀ before s,
     representatives (before ++ [s]) =
       representatives before ++
       if at_noon s &&
          negb (bool_decide (local_date s ∈ local_date <$> representatives before))
       then [s] else []) ∧
  (∀ before after,
     representatives before `prefix_of` representatives (before ++ after)) ∧
  Forall (λ s, at_noon s = true) (representatives samples).
Proof.
  intros Hl Hc Hstop.
  split; [by apply (process_forecast_carries _ items _ unread)|].
  split; [|split; [|by apply representatives_after_at_noon]].
  - intros before s. unfold representatives.
    rewrite representatives_after_app. cbn [representatives_after app].
    by destruct (at_noon s && _).
  - intros before after. unfold representatives.
    rewrite representatives_after_app. by eexists.
Qed.

(** C2: the current conditions of a well-formed response come from the
    first sample alone: temperature and feels-like rounded, humidity and
    pressure as they are, wind speed times 3.6 rounded, visibility
    divided by 1000 rounded. *)
Theorem process_current_from_first_sample data item rest s :
  Ok data ▷ "list" = Ok (Arr (item :: rest)) →
  carries item s →
  process_current data =
    Ok {| Current.temp := Math_round (temp s);
          Current.feelsLike := Math_round (feels_like s);
          Current.condition := Str (condition s);
          Current.humidity := Num (humidity s);
          Current.windSpeed := Math_round (wind_speed s * 3.6);
          Current.pressure := Num (pressure s);
          Current.visibility := Math_round (visibility s / 1000) |}.
Proof. apply process_current_carries. Qed.
End ReducerTheorems.

Section ReducerInvariants.
Context `{Runtime}.

(** C3, as the code has it: the forecast never has more than three
    entries, whatever the items are; on well-formed samples it is the
    entries of samples with pairwise distinct local dates, taken in
    scan order, so that a chronological input gives a chronological
    forecast. (An input that is not chronological need not.) *)
Theorem process_forecast_invariants data :
  (∀ forecast, process_forecast data = Ok forecast → length forecast ≤ 3) ∧
  (∀ items samples,
     Ok data ▷ "list" = Ok (Arr items) →
     Forall2 carries items samples →
     let selected := take 3 (representatives samples) in
     process_forecast data = Ok (daily_entry <$> selected) ∧
     length (daily_entry <$> selected) ≤ 3 ∧
     NoDup (local_date <$> selected) ∧
     selected `sublist_of` samples ∧
     (chronological samples → chronological selected)).
Proof.
  split.
  - intros forecast. unfold process_forecast.
    destruct (Ok data ▷ "list" ≫= iterate) as [items|e]; [|done].
    cbn [mbind result_bind]. apply forecast_loop_length. simpl. lia.
  - intros items samples Hl Hc selected.
    assert (Hsub : selected `sublist_of` samples).
    { unfold selected, representatives.
      etrans; [apply sublist_take | apply representatives_after_sublist]. }
    split.
    { apply (process_forecast_carries _ items _ []); [|done|by left].
      by rewrite app_nil_r. }
    split; [rewrite length_fmap; unfold selected; rewrite length_take; lia|].
    split; [|split; [done|]].
    + pose proof (representatives_after_NoDup [] samples) as Hnd.
      cbn [app fmap list_fmap] in Hnd. specialize (Hnd (NoDup_nil_2)).
      apply (sublist_NoDup (local_date <$> selected)
               (local_date <$> representatives_after [] samples));
        [exact Hnd|].
      unfold selected, representatives. rewrite fmap_take. apply sublist_take.
    + unfold chronological. by apply StronglySorted_sublist.
Qed.

(** C8: the result is a function of the response alone. Settling the
    same response in two different states stores the same result and
    the same error, settling it a second time changes nothing, and
    two well-formed bodies that carry the same city name and the same
    samples reduce to the same result, which is the pair of
    [current_conditions] and [daily_forecast] of those samples. *)
Theorem reduce_is_a_function_of_the_samples :
  (∀ o st1 st2,
     weather (run st1 (fetchWeather_settle o)) =
       weather (run st2 (fetchWeather_settle o)) ∧
     (is_Ok (try_block o) = false →
      error (run st1 (fetchWeather_settle o)) =
        error (run st2 (fetchWeather_settle o))) ∧
     run (run st1 (fetchWeather_settle o)) (fetchWeather_settle o) =
       run st1 (fetchWeather_settle o)) ∧
  (∀ data1 data2 items1 items2 name s samples,
     Ok data1 ▷ "list" = Ok (Arr items1) →
     Ok data2 ▷ "list" = Ok (Arr items2) →
     Forall2 carries items1 (s :: samples) →
     Forall2 carries items2 (s :: samples) →
     Ok data1 ▷ "city" ▷ "name" = Ok name →
     Ok data2 ▷ "city" ▷ "name" = Ok name →
     reduce data1 = reduce data2 ∧
     reduce data1 =
       Ok {| WeatherData.city := name;
             WeatherData.current := current_conditions s;
             WeatherData.forecast := daily_forecast (s :: samples) |}).
Proof.
  split.
  - intros o st1 st2. unfold fetchWeather_settle.
    by destruct (try_block o).
  - intros data1 data2 items1 items2 name s samples Hl1 Hl2 Hc1 Hc2 Hn1 Hn2.
    destruct items1 as [|item1 rest1]; [by apply Forall2_nil_cons_inv in Hc1|].
    destruct items2 as [|item2 rest2]; [by apply Forall2_nil_cons_inv in Hc2|].
    rewrite (reduce_carries data1 _ _ _ _ _ Hl1 Hc1 Hn1).
    by rewrite (reduce_carries data2 _ _ _ _ _ Hl2 Hc2 Hn2).
Qed.
End ReducerInvariants.

(* ===================================================================== *)
(** ** The lifetime of a request *)
(* ===================================================================== *)

Lemma run_setCity st typed :
  let st' := run st (setCity <$> typed) in
  weather st' = weather st ∧ loading st' = loading st ∧ error st' = error st.
Proof.
  revert st. induction typed as [|s typed IH]; intros st; [done|].
  cbn [fmap list_fmap run foldl]. specialize (IH (apply_effect st (setCity s))).
  apply IH.
Qed.

Section Lifetime.
Context `{Runtime}.

(** C4, as the code has it: a submission sets the loading flag and
    clears the error before it issues the request, and leaves the last
    result where it is; while the response is awaited (the user may
    type) the flag stays on and the error empty; the updates on
    settlement end with the one that clears the flag, and leave either
    the new result with an empty error or no result with the message.
    So the flag is never on together with an error; it can be on
    together with the previous result. *)
Theorem request_lifetime st typed o :
  truthy_string (trim (city st)) = true →
  let pending := run st (fetchWeather_submit st) in
  let waiting := run pending (setCity <$> typed) in
  let final := run waiting (fetchWeather_settle o) in
  fetchWeather_submit st =
    [preventDefault; setLoading true; setError [];
     fetch (request_url (city st))] ∧
  (loading pending = true ∧ error pending = [] ∧ weather pending = weather st) ∧
  (loading waiting = true ∧ error waiting = [] ∧ weather waiting = weather st) ∧
  last (fetchWeather_settle o) = Some (setLoading false) ∧
  loading final = false ∧
  match try_block o with
  | Ok data => weather final = Some data ∧ error final = []
  | Throw _ => weather final = None ∧ error final = error_message
  end ∧
  error_exclusive pending ∧ error_exclusive waiting ∧ error_exclusive final.
Proof.
  intros Hc pending waiting final.
  pose proof (submit_nonblank st Hc) as Hs.
  assert (Hp : loading pending = true ∧ error pending = []
               ∧ weather pending = weather st).
  { unfold pending. by rewrite Hs. }
  assert (Hw : loading waiting = true ∧ error waiting = []
               ∧ weather waiting = weather st).
  { destruct (run_setCity pending typed) as (Hw1 & Hw2 & Hw3).
    unfold waiting. rewrite Hw1, Hw2, Hw3. done. }
  split; [done|]. split; [done|]. split; [done|].
  unfold error_exclusive, final, fetchWeather_settle.
  destruct Hp as (Hp1 & Hp2 & _), Hw as (Hw1 & Hw2 & _).
  destruct (try_block o); cbn; rewrite ?Hw2; by repeat split.
Qed.
End Lifetime.

(* ===================================================================== *)
(** ** The program on concrete inputs *)
(* ===================================================================== *)

Module Examples.
Import Browser.

Example Math_round_ties_up :
  Math_round 2.5 = 3%float ∧ Math_round (-2.5) = (-2)%float ∧
  Math_round 20.4 = 20%float ∧ Math_round (2.5 * 3.6) = 9%float ∧
  Math_round (10000 / 1000) = 10%float.
Proof. by vm_compute. Qed.

Example WeatherIcon_conditions :
  WeatherIcon toLowerCase_ascii (js "Rain") = CloudRain ∧
  WeatherIcon toLowerCase_ascii (js "Drizzle") = CloudRain ∧
  WeatherIcon toLowerCase_ascii (js "Clouds") = Cloud ∧
  WeatherIcon toLowerCase_ascii (js "Snow") = CloudSnow ∧
  WeatherIcon toLowerCase_ascii (js "Clear") = Sun ∧
  WeatherIcon toLowerCase_ascii (js "Snow, then rain clouds") = CloudRain ∧
  WeatherIcon toLowerCase_ascii (js "Snow clouds") = Cloud.
Proof. by vm_compute. Qed.

(** Scenario A of the specification: three days at three-hour steps
    give one entry per day, in order. *)
Example three_days_forecast :
  Entry.date <$> daily_forecast three_days =
    [js "Thu, Jan 1"; js "Fri, Jan 2"; js "Sat, Jan 3"] ∧
  process_forecast (body_value (js "Paris") three_days) =
    Ok (daily_forecast three_days).
Proof. by vm_compute. Qed.

(** Scenario B: no sample at noon, no forecast, and the current
    conditions of the first sample all the same. *)
Example off_noon_forecast :
  reduce (body_value (js "Paris") off_noon) =
    Ok {| WeatherData.city := Str (js "Paris");
          WeatherData.current :=
            current_conditions (sample_at 3600 20.6 10.4 "Clear");
          WeatherData.forecast := [] |}.
Proof. by vm_compute. Qed.

(** An entry without [weather] is a failure when it is the first one,
    and goes unnoticed when the loop does not select it. *)
Example first_without_weather_throws :
  reduce first_without_weather = Throw TypeError.
Proof. by vm_compute. Qed.

Example unread_without_weather_succeeds :
  is_Ok (reduce unread_without_weather) = true.
Proof. by vm_compute. Qed.

Lemma process_forecast_selects_noon_representatives_witness :
  process_forecast three_days_then_null =
    Ok ((λ s, {| Entry.date := toLocaleDateString_short (Date_new (dt s * 1000));
                 Entry.high := Math_round (temp_max s);
                 Entry.low := Math_round (temp_min s);
                 Entry.condition := Str (condition s) |})
        <$> take 3 (representatives three_days)).
Proof.
  apply (process_forecast_selects_noon_representatives
           three_days_then_null
           (sample_value <$> three_days) three_days [Null]).
  - vm_compute. reflexivity.
  - apply Forall2_sample_value_carries.
  - right. vm_compute. lia.
Defined.

Lemma process_current_from_first_sample_witness :
  process_current (body_value (js "Paris") three_days) =
    Ok {| Current.temp := 21; Current.feelsLike := 21;
          Current.condition := Str (js "Clouds");
          Current.humidity := Num 40; Current.windSpeed := 9;
          Current.pressure := Num 1013; Current.visibility := 10 |}.
Proof.
  pose proof (process_current_from_first_sample
                (body_value (js "Paris") three_days)
                (sample_value (sample_at 0 20.6 10.4 "Clouds"))
                (sample_value <$> tail three_days)
                (sample_at 0 20.6 10.4 "Clouds")) as Hfirst.
  assert (Hlist : Ok (body_value (js "Paris") three_days) ▷ "list" =
            Ok (Arr (sample_value (sample_at 0 20.6 10.4 "Clouds")
                     :: (sample_value <$> tail three_days)))).
  { vm_compute. reflexivity. }
  rewrite (Hfirst Hlist (sample_value_carries _)).
  vm_compute. reflexivity.
Defined.

(** Two noon samples in reverse order are both selected, the later day
    first. *)
Lemma forecast_dates_can_decrease :
  process_forecast (body_value (js "Paris") reversed_days) =
    Ok (daily_entry <$> take 3 (representatives reversed_days)) ∧
  Entry.date <$> (daily_entry <$> take 3 (representatives reversed_days)) =
    [js "Fri, Jan 2"; js "Thu, Jan 1"] ∧
  ¬ chronological (take 3 (representatives reversed_days)).
Proof.
  split; [by vm_compute|]. split; [by vm_compute|].
  change (take 3 (representatives reversed_days)) with reversed_days.
  intros Hs. apply StronglySorted_inv in Hs as [_ Hf].
  apply Forall_cons_1 in Hf as [Hle _]. vm_compute in Hle. discriminate.
Qed.

Lemma process_forecast_invariants_witness :
  let selected := take 3 (representatives three_days) in
  process_forecast (body_value (js "Paris") three_days) =
    Ok (daily_entry <$> selected) ∧
  length (daily_entry <$> selected) ≤ 3 ∧
  NoDup (local_date <$> selected) ∧
  selected `sublist_of` three_days ∧
  (chronological three_days → chronological selected).
Proof.
  apply (proj2 (process_forecast_invariants (body_value (js "Paris") three_days))
           (sample_value <$> three_days) three_days).
  - reflexivity.
  - apply Forall2_sample_value_carries.
Defined.

(** A second submission while a result is shown: the flag is on and the
    previous result is still there. *)
Lemma result_kept_while_loading :
  let resubmitted := run shown (fetchWeather_submit shown) in
  loading resubmitted = true ∧ weather resubmitted ≠ None ∧
  ¬ exclusive resubmitted.
Proof.
  intros resubmitted.
  assert (Hl : loading resubmitted = true).
  { vm_compute. reflexivity. }
  assert (Hw : weather resubmitted ≠ None).
  { vm_compute. discriminate. }
  split; [exact Hl|]. split; [exact Hw|].
  intros Hx. exact (Hw (proj2 (Hx Hl))).
Qed.

Lemma request_lifetime_witness :
  let pending := run paris (fetchWeather_submit paris) in
  let waiting := run pending (setCity <$> [js "Paris, FR"]) in
  let final := run waiting (fetchWeather_settle (not_found [])) in
  error_exclusive pending ∧ error_exclusive waiting ∧ error_exclusive final.
Proof.
  apply (request_lifetime paris [js "Paris, FR"] (not_found [])).
  by vm_compute.
Defined.

Lemma fetchWeather_provider_error_witness :
  let final := run shown (fetchWeather not_found shown) in
  error final = error_message ∧ weather final = None ∧ loading final = false.
Proof.
  apply (fetchWeather_provider_error not_found shown
           {| status := 404; json := Throw SyntaxError |});
    by vm_compute.
Defined.

Lemma fetchWeather_blank_city_witness :
  let st := run shown [setCity (js "   ")] in
  fetchWeather not_found st = [preventDefault] ∧
  requests (fetchWeather not_found st) = [] ∧
  run st (fetchWeather not_found st) = st.
Proof.
  apply (fetchWeather_blank_city not_found (run shown [setCity (js "   ")])).
  repeat constructor.
Defined.

Lemma reduce_is_a_function_of_the_samples_witness :
  reduce (annotated_body (js "Paris") two_samples) =
    reduce (body_value (js "Paris") two_samples).
Proof.
  apply (proj2 reduce_is_a_function_of_the_samples
           (annotated_body (js "Paris") two_samples)
           (body_value (js "Paris") two_samples)
           [sample_value (sample_at 0 3.4 1.2 "Clear");
            sample_value (sample_at 43200 9.5 3.1 "Rain")]
           [sample_value (sample_at 0 3.4 1.2 "Clear");
            sample_value (sample_at 43200 9.5 3.1 "Rain")]
           (Str (js "Paris"))
           (sample_at 0 3.4 1.2 "Clear")
           [sample_at 43200 9.5 3.1 "Rain"]).
  1, 2, 5, 6: vm_compute; reflexivity.
  all: repeat constructor.
Defined.

Lemma fetchWeather_empty_list_witness :
  let final :=
    run paris (fetchWeather (answers (body_value (js "Paris") [])) paris) in
  error final = error_message ∧ weather final = None ∧ loading final = false.
Proof.
  apply (fetchWeather_empty_list (answers (body_value (js "Paris") [])) paris
           {| status := 200; json := Ok (body_value (js "Paris") []) |}
           (body_value (js "Paris") []));
    by vm_compute.
Defined.
End Examples.

(* ===================================================================== *)
(** ** More about the reducer: bodies of any shape *)
(* ===================================================================== *)

Lemma bind_Ok {A B} (r : result A) (f : A → result B) y :
  r ≫= f = Ok y → ∃ x, r = Ok x ∧ f x = Ok y.
Proof. destruct r as [x|e]; [by exists x | done]. Qed.

Lemma get_Ok_readable v k x : get v k = Ok x → v ≠ Undefined ∧ v ≠ Null.
Proof. by destruct v. Qed.

Lemma prop_Ok_readable r k x : r ▷ k = Ok x → readable r.
Proof.
  unfold prop. intros (v & -> & Hg)%bind_Ok.
  exists v. split; [done|]. by eapply get_Ok_readable.
Qed.

Lemma readable_prop r k : readable (r ▷ k) → readable r.
Proof. intros (v & Hv & _). by eapply prop_Ok_readable. Qed.

(** Only an array with a first element passes both
    [data.list[0].main.temp] and the [for ... of]. *)
Lemma list_is_nonempty_array data x items :
  Ok data ▷ "list" ▷ "0" ▷ "main" ▷ "temp" = Ok x →
  Ok data ▷ "list" ≫= iterate = Ok items →
  ∃ item rest, Ok data ▷ "list" = Ok (Arr (item :: rest)) ∧ items = item :: rest
               ∧ Ok data ▷ "list" ▷ "0" = Ok item.
Proof.
  intros Hm (l & Hl & Hi)%bind_Ok. rewrite Hl in Hm |- *.
  destruct l as [| | | |s|[|item rest]|]; try done.
  - by destruct s as [|c s].
  - injection Hi as <-. by exists item, rest.
Qed.

Section Shapes.
Context `{Runtime}.

Lemma ToNumber_primitive v :
  primitive v = true → ToNumber v = Ok (primitive_number v).
Proof. by destruct v. Qed.

Lemma forecast_Ok_length data forecast :
  process_forecast data = Ok forecast → length forecast ≤ 3.
Proof.
  unfold process_forecast. intros (items & _ & Hloop)%bind_Ok.
  eapply forecast_loop_length; [|exact Hloop]. simpl. lia.
Qed.

(** X1: a body is reduced without an exception only if its [list] is an
    array with a first element, that element and its [main],
    [weather], [weather[0]] and [wind] are neither absent nor [null], and
    neither is [data.city]; the forecast of the result has at most three
    entries. *)
Theorem reduce_Ok_shape data result :
  reduce data = Ok result →
  (∃ item rest, Ok data ▷ "list" = Ok (Arr (item :: rest))) ∧
  readable (Ok data ▷ "list" ▷ "0") ∧
  readable (Ok data ▷ "list" ▷ "0" ▷ "main") ∧
  readable (Ok data ▷ "list" ▷ "0" ▷ "weather") ∧
  readable (Ok data ▷ "list" ▷ "0" ▷ "weather" ▷ "0") ∧
  readable (Ok data ▷ "list" ▷ "0" ▷ "wind") ∧
  readable (Ok data ▷ "city") ∧
  length (WeatherData.forecast result) ≤ 3.
Proof.
  unfold reduce.
  intros (current & Hc & (forecast & Hf & (name & Hn & [= <-])%bind_Ok)%bind_Ok)%bind_Ok.
  unfold process_current in Hc.
  apply bind_Ok in Hc as (temp & (t & Ht & _)%bind_Ok & Hc).
  apply bind_Ok in Hc as (feels & _ & Hc).
  apply bind_Ok in Hc as (cond & Hw & Hc).
  apply bind_Ok in Hc as (hum & _ & Hc).
  apply bind_Ok in Hc as (speed & (sp & Hs & _)%bind_Ok & _).
  pose proof (prop_Ok_readable _ _ _ Ht) as Hmain.
  pose proof (prop_Ok_readable _ _ _ Hw) as Hw0.
  pose proof (prop_Ok_readable _ _ _ Hs) as Hwind.
  destruct Hmain as (m & Hm & Hm').
  assert (Hl : ∃ item rest, Ok data ▷ "list" = Ok (Arr (item :: rest))).
  { unfold process_forecast in Hf. apply bind_Ok in Hf as (items & Hi & _).
    destruct (list_is_nonempty_array _ _ _ Ht Hi) as (item & rest & ? & _).
    by exists item, rest. }
  split; [done|].
  split; [by eapply prop_Ok_readable|].
  split; [by exists m|].
  split; [by eapply readable_prop|].
  split; [done|]. split; [done|].
  split; [by eapply prop_Ok_readable|].
  exact (forecast_Ok_length _ _ Hf).
Qed.

(** X2: what a leaf holds never makes [process_current] fail. When the
    seven paths it reads exist, with anything but an array or object
    where a number is expected, there are current conditions: each
    numeric field is the rounding of the leaf converted to a number (NaN
    when the leaf is absent), and condition, humidity and pressure are
    the leaves as they are ([undefined] when absent). *)
Theorem process_current_any_leaves data t f c h s p v :
  Ok data ▷ "list" ▷ "0" ▷ "main" ▷ "temp" = Ok t →
  Ok data ▷ "list" ▷ "0" ▷ "main" ▷ "feels_like" = Ok f →
  Ok data ▷ "list" ▷ "0" ▷ "weather" ▷ "0" ▷ "main" = Ok c →
  Ok data ▷ "list" ▷ "0" ▷ "main" ▷ "humidity" = Ok h →
  Ok data ▷ "list" ▷ "0" ▷ "wind" ▷ "speed" = Ok s →
  Ok data ▷ "list" ▷ "0" ▷ "main" ▷ "pressure" = Ok p →
  Ok data ▷ "list" ▷ "0" ▷ "visibility" = Ok v →
  primitive t = true → primitive f = true →
  primitive s = true → primitive v = true →
  process_current data =
    Ok {| Current.temp := Math_round (primitive_number t);
          Current.feelsLike := Math_round (primitive_number f);
          Current.condition := c;
          Current.humidity := h;
          Current.windSpeed := Math_round (primitive_number s * 3.6);
          Current.pressure := p;
          Current.visibility := Math_round (primitive_number v / 1000) |} ∧
  primitive_number Undefined = nan ∧
  Math_round nan = nan ∧ Math_round (nan * 3.6) = nan ∧
  Math_round (nan / 1000) = nan.
Proof.
  intros Ht Hf Hc Hh Hs Hp Hv Pt Pf Ps Pv. split; [|by vm_compute].
  unfold process_current. rewrite Ht, Hf, Hc, Hh, Hs, Hp, Hv.
  cbn [mbind result_bind].
  by rewrite !ToNumber_primitive by done.
Qed.
End Shapes.

(* ===================================================================== *)
(** ** More about the loop *)
(* ===================================================================== *)

Section Loop.
Context `{Runtime}.

(** X3: an item without [dt] (an object that lacks it, or a number, a
    string, a boolean) is passed over, whatever else it lacks, as long
    as the hour of an invalid date is not 12 (it is NaN); the loop goes
    on with the forecast and the dates it had. *)
Theorem forecast_loop_skips_items_without_dt skipped rest forecast processedDates :
  (getHours None =? 12)%float = false →
  Forall (λ item, Ok item ▷ "dt" = Ok Undefined) skipped →
  forecast_loop (skipped ++ rest) forecast processedDates =
    forecast_loop rest forecast processedDates.
Proof.
  intros Hnan. induction 1 as [|item skipped Hdt _ IH]; [done|].
  cbn [app forecast_loop]. rewrite Hdt. cbn [mbind result_bind ToNumber].
  change (Date_new (nan * 1000)) with (@None Z).
  by rewrite Hnan, andb_false_r.
Qed.

Lemma representatives_after_none selected samples :
  Forall (λ s, at_noon s = false) samples →
  representatives_after selected samples = [].
Proof.
  induction 1 as [|s samples Hs _ IH]; [done|].
  cbn [representatives_after]. by rewrite Hs.
Qed.

(** X4: when no sample of a well-formed response falls on local hour 12,
    the request still succeeds: the result has the current conditions of
    the first sample and an empty forecast. *)
Theorem reduce_without_noon_samples data item rest s samples name :
  Ok data ▷ "list" = Ok (Arr (item :: rest)) →
  Forall2 carries (item :: rest) (s :: samples) →
  Ok data ▷ "city" ▷ "name" = Ok name →
  Forall (λ s, at_noon s = false) (s :: samples) →
  reduce data =
    Ok {| WeatherData.city := name;
          WeatherData.current := current_conditions s;
          WeatherData.forecast := [] |}.
Proof.
  intros Hl Hc Hn Hnoon. rewrite (reduce_carries _ _ _ _ _ _ Hl Hc Hn).
  unfold daily_forecast, representatives.
  by rewrite (representatives_after_none _ _ Hnoon).
Qed.

(** The dates that get a representative are the dates, not selected
    before, that have a sample at noon. *)
Lemma representatives_after_dates selected samples d :
  d ∈ local_date <$> representatives_after selected samples ↔
  (d ∉ local_date <$> selected) ∧
  ∃ s, s ∈ samples ∧ at_noon s = true ∧ local_date s = d.
Proof.
  revert selected. induction samples as [|s0 samples IH]; intros selected.
  - cbn [representatives_after fmap list_fmap]. split.
    + by intros ?%elem_of_nil.
    + by intros (_ & s & ?%elem_of_nil & _).
  - cbn [representatives_after].
    destruct (at_noon s0 && negb (bool_decide
                (local_date s0 ∈ local_date <$> selected))) eqn:Hsel.
    + apply andb_true_iff in Hsel as [Hnoon Hnew].
      apply negb_true_iff, bool_decide_eq_false in Hnew.
      rewrite fmap_cons, elem_of_cons, IH, fmap_app, elem_of_app.
      cbn [fmap list_fmap]. rewrite list_elem_of_singleton. split.
      * intros [->|(Hd & s & Hs & Hn & Hds)].
        -- split; [done|]. exists s0. rewrite elem_of_cons. by auto.
        -- split; [tauto|]. exists s. rewrite elem_of_cons. by auto.
      * intros (Hd & s & Hs & Hn & Hds).
        destruct (decide (d = local_date s0)) as [->|Hne]; [by left|].
        right. split; [tauto|]. exists s. split; [|done].
        apply elem_of_cons in Hs as [->|Hs]; [congruence|done].
    + rewrite IH. split.
      * intros (Hd & s & Hs & Hn & Hds). split; [done|].
        exists s. rewrite elem_of_cons. by auto.
      * intros (Hd & s & Hs & Hn & Hds). split; [done|].
        exists s. split; [|done].
        apply elem_of_cons in Hs as [->|Hs]; [|done].
        exfalso. rewrite Hn in Hsel. cbn in Hsel.
        apply negb_false_iff, bool_decide_eq_true in Hsel. congruence.
Qed.

Lemma representatives_snoc before s :
  representatives (before ++ [s]) =
    representatives before ++
    if at_noon s &&
       negb (bool_decide (local_date s ∈ local_date <$> representatives before))
    then [s] else [].
Proof.
  unfold representatives. rewrite representatives_after_app.
  cbn [representatives_after app]. by destruct (at_noon s && _).
Qed.

(** X5: no date with a noon sample is forgotten short of the limit. When
    fewer than three entries come out of a well-formed list, every
    sample at local hour 12 has the entry of a sample of its own local
    date in the forecast. *)
Theorem every_noon_date_has_its_entry data items samples forecast :
  Ok data ▷ "list" = Ok (Arr items) →
  Forall2 carries items samples →
  process_forecast data = Ok forecast →
  length forecast < 3 →
  ∀ s, s ∈ samples → at_noon s = true →
    ∃ r, r ∈ samples ∧ at_noon r = true ∧ local_date r = local_date s ∧
         daily_entry r ∈ forecast.
Proof.
  intros Hl Hc Hf Hlen s Hs Hnoon.
  rewrite (process_forecast_carries data items samples []) in Hf;
    [|by rewrite app_nil_r|done|by left].
  injection Hf as <-. unfold daily_forecast in *.
  rewrite length_fmap, length_take in Hlen.
  rewrite take_ge in * by lia.
  assert (Hd : local_date s ∈ local_date <$> representatives samples).
  { apply representatives_after_dates. split; [by intros ?%elem_of_nil|eauto]. }
  apply list_elem_of_fmap in Hd as (r & Hr & Hin).
  exists r. split; [|split; [|split; [done|]]].
  - eapply sublist_subseteq; [apply representatives_after_sublist|done].
  - pose proof (representatives_after_at_noon [] samples) as Hall.
    rewrite Forall_forall in Hall. by apply Hall.
  - by apply list_elem_of_fmap_2.
Qed.

(** X6: the representative of a date is its first sample at noon. After
    well-formed samples [before] that gave fewer than three entries, the
    next sample [s] adds its entry exactly when its local hour is 12 and
    no sample of [before] at local hour 12 has its local date. *)
Theorem entry_added_for_first_noon_sample_of_date data items before s :
  Ok data ▷ "list" = Ok (Arr items) →
  Forall2 carries items (before ++ [s]) →
  length (representatives before) < 3 →
  let first_at_noon :=
    at_noon s = true ∧
    ∀ s', s' ∈ before → at_noon s' = true → local_date s' ≠ local_date s in
  (first_at_noon →
   process_forecast data =
     Ok ((daily_entry <$> representatives before) ++ [daily_entry s])) ∧
  (¬ first_at_noon →
   process_forecast data = Ok (daily_entry <$> representatives before)).
Proof.
  intros Hl Hc Hlen first_at_noon.
  rewrite (process_forecast_carries data items (before ++ [s]) []);
    [|by rewrite app_nil_r|done|by left].
  unfold daily_forecast. rewrite representatives_snoc.
  assert (Hdates : local_date s ∈ local_date <$> representatives before ↔
            ∃ s', s' ∈ before ∧ at_noon s' = true ∧ local_date s' = local_date s).
  { unfold representatives. rewrite representatives_after_dates.
    split; [by intros [_ ?]|]. split; [by intros ?%elem_of_nil|done]. }
  destruct (at_noon s) eqn:Hnoon; cbn [andb].
  - case_bool_decide as Hin; cbn [negb].
    + rewrite app_nil_r, take_ge by lia. split; [|done].
      intros [_ Hfirst]. apply Hdates in Hin as (s' & Hs' & Hn' & Hd').
      by destruct (Hfirst s' Hs' Hn').
    + rewrite take_ge by (rewrite length_app; simpl; lia).
      rewrite fmap_app. split; [done|]. intros Hnot. destruct Hnot.
      split; [done|]. intros s' Hs' Hn' Hd'. apply Hin, Hdates. eauto.
  - rewrite app_nil_r, take_ge by lia. split; [by intros [? _]|done].
Qed.
End Loop.

(* ===================================================================== *)
(** ** More about the handler *)
(* ===================================================================== *)

Section HandlerOutcomes.
Context `{Runtime}.


(** X8: when the request itself fails (the promise of [fetch] rejects) or
    the body of a response with success status does not parse, nothing
    is reduced and the submission ends in the failed state: the message,
    no result, not loading, the text field as it was. *)
Theorem fetchWeather_transport_failure network st :
  truthy_string (trim (city st)) = true →
  (∃ e, network (request_url (city st)) = Rejected e) ∨
  (∃ r e, network (request_url (city st)) = Resolved r ∧ ok r = true
          ∧ json r = Throw e) →
  run st (fetchWeather network st) = failed st.
Proof.
  intros Hc [[e Hn]|(r & e & Hn & Hok & Hj)].
  - apply (fetchWeather_Throw network st e Hc). by rewrite Hn.
  - apply (fetchWeather_Throw network st e Hc). rewrite Hn.
    unfold try_block. cbn [mbind result_bind]. by rewrite Hok, Hj.
Qed.
End HandlerOutcomes.

(* ===================================================================== *)
(** ** The page in use: what holds after every run of events *)
(* ===================================================================== *)

Section PageFacts.
Context `{Runtime}.

Lemma after_snoc events ev : after (events ++ [ev]) = dispatch (after events) ev.
Proof. unfold after. by rewrite foldl_app. Qed.

(** What holds at the start and is kept by every event of a kind holds
    after every run of events of that kind. *)
Lemma after_invariant (P : Page → Prop) (Q : event → Prop) :
  P start →
  (∀ page ev, Q ev → P page → P (dispatch page ev)) →
  ∀ events, Forall Q events → P (after events).
Proof.
  intros Hstart Hstep events Hq. unfold after.
  generalize dependent start. induction Hq as [|ev events Hev _ IH]; intros page Hp.
  - done.
  - cbn [foldl]. apply IH. by apply Hstep.
Qed.

Lemma after_invariant_all (P : Page → Prop) :
  P start →
  (∀ page ev, P page → P (dispatch page ev)) →
  ∀ events, P (after events).
Proof.
  intros Hstart Hstep events.
  apply (after_invariant P (λ _, True)); [done|auto|].
  by apply Forall_forall.
Qed.

(** The state and the requests of a call of the handler. *)
Lemma issue_submit page :
  issue page (fetchWeather_submit (state page)) =
    if truthy_string (trim (city (state page)))
    then {| state := {| city := city (state page);
                        weather := weather (state page);
                        loading := true; error := [] |};
            pending := pending page ++ [request_url (city (state page))] |}
    else page.
Proof.
  unfold issue, fetchWeather_submit.
  destruct (truthy_string _); cbn; [done|].
  rewrite app_nil_r. by destruct page as [[] ?].
Qed.

Lemma run_settle st o :
  run st (fetchWeather_settle o) =
    match try_block o with
    | Ok data => {| city := city st; weather := Some data;
                    loading := false; error := error st |}
    | Throw _ => failed st
    end.
Proof. unfold fetchWeather_settle. by destruct (try_block o). Qed.

Lemma try_block_Ok_length o data :
  try_block o = Ok data → length (WeatherData.forecast data) ≤ 3.
Proof.
  unfold try_block. intros (r & _ & Ht)%bind_Ok.
  destruct (negb (ok r)); [done|].
  apply bind_Ok in Ht as (body & _ & Hr).
  unfold reduce in Hr.
  apply bind_Ok in Hr as (c & _ & (f & Hf & (n & _ & [= <-])%bind_Ok)%bind_Ok).
  exact (forecast_Ok_length _ _ Hf).
Qed.

(** X9: whatever the user does and whatever the network answers, the
    error cell holds the empty string or the one fixed message. *)
Theorem error_is_empty_or_the_message events :
  error (state (after events)) = [] ∨
  error (state (after events)) = error_message.
Proof.
  apply (after_invariant_all
           (λ page, error (state page) = [] ∨ error (state page) = error_message));
    [by left|].
  intros page ev Hp. cbn beta in *.
  destruct ev as [text|key| |i o]; cbn [dispatch].
  - done.
  - case_bool_decide; [|done]. rewrite issue_submit.
    destruct (truthy_string _); [by left|done].
  - destruct (loading (state page)); [done|]. rewrite issue_submit.
    destruct (truthy_string _); [by left|done].
  - destruct (pending page !! i); [|done]. cbn [state].
    rewrite run_settle. destruct (try_block o); [done|by right].
Qed.

(** X10: the loading flag is on only while a request is in flight. *)
Theorem loading_only_while_pending events :
  loading (state (after events)) = true → pending (after events) ≠ [].
Proof.
  apply (after_invariant_all
           (λ page, loading (state page) = true → pending page ≠ []));
    [done|].
  intros page ev Hp. cbn beta in *.
  destruct ev as [text|key| |i o]; cbn [dispatch].
  - cbn. rewrite app_nil_r. done.
  - case_bool_decide; [|done]. rewrite issue_submit.
    destruct (truthy_string _); [|done]. cbn. intros _ Hnil.
    by apply app_eq_nil in Hnil as [_ ?].
  - destruct (loading (state page)) eqn:Hl; [intros _; by apply Hp|].
    rewrite issue_submit.
    destruct (truthy_string _); [|by rewrite Hl]. cbn. intros _ Hnil.
    by apply app_eq_nil in Hnil as [_ ?].
  - destruct (pending page !! i); [|done]. cbn [state].
    rewrite run_settle. by destruct (try_block o).
Qed.

(** X11: the result on the page, whenever there is one, has at most three
    forecast entries. *)
Theorem shown_forecast_at_most_three events data :
  weather (state (after events)) = Some data →
  length (WeatherData.forecast data) ≤ 3.
Proof.
  revert data.
  apply (after_invariant_all
           (λ page, ∀ data, weather (state page) = Some data →
                            length (WeatherData.forecast data) ≤ 3));
    [done|].
  intros page ev Hp. cbn beta in *.
  destruct ev as [text|key| |i o]; cbn [dispatch].
  - done.
  - case_bool_decide; [|done]. rewrite issue_submit.
    by destruct (truthy_string _).
  - destruct (loading (state page)); [done|]. rewrite issue_submit.
    by destruct (truthy_string _).
  - destruct (pending page !! i); [|done]. cbn [state].
    rewrite run_settle. destruct (try_block o) eqn:Ht; [|done].
    intros data [= <-]. by eapply try_block_Ok_length.
Qed.

Lemma button_only_orderly events : button_only events → orderly (after events).
Proof.
  apply (after_invariant orderly).
  { unfold orderly. cbn. repeat split; intros; (done || congruence || lia). }
  intros page ev Hev Ho. pose proof Ho as (Hlen & Hload & Herr & Hex).
  destruct ev as [text|key| |i o]; cbn [dispatch].
  - unfold orderly, issue. cbn. by rewrite app_nil_r.
  - case_bool_decide as Hkey; [by subst|done].
  - destruct (loading (state page)) eqn:Hl; [exact Ho|].
    rewrite issue_submit. destruct (truthy_string _); [|exact Ho].
    assert (Hp : pending page = []).
    { destruct (pending page) as [|u p] eqn:Hp; [done|].
      by assert (false = true) by (by apply Hload). }
    unfold orderly. cbn. rewrite Hp. cbn.
    repeat split; intros; (done || congruence || lia).
  - destruct (pending page !! i) as [u|] eqn:Hi; [|done].
    assert (Hp : pending page = [u] ∧ i = 0).
    { destruct (pending page) as [|u' [|u'' p]], i as [|i]; cbn in *;
        try done; try lia. by injection Hi as ->. }
    destruct Hp as [Hp ->].
    assert (Hl : loading (state page) = true) by (apply Hload; by rewrite Hp).
    unfold orderly. cbn [state pending].
    rewrite run_settle, Hp. cbn [delete list_delete].
    destruct (try_block o); cbn.
    + rewrite (Herr Hl). repeat split; intros; (done || congruence || lia).
    + repeat split; intros; (done || congruence || lia).
Qed.
End PageFacts.

(* ===================================================================== *)
(** ** What the page shows *)
(* ===================================================================== *)

Section ViewFacts.
Context `{Runtime}.
Variable toLowerCase : jsstring → jsstring.
Variable invalid_child : value → jsstring.

(** The parts of a page that was rendered, read off the state. *)
Lemma App_render_Ok st v :
  App_render toLowerCase invalid_child st = Ok v →
  View.value v = city st ∧
  View.disabled v = loading st ∧
  View.label v = (if loading st then js "Loading..." else js "Search") ∧
  View.error v = (if truthy_string (error st) then Some (error st) else None) ∧
  (View.weather v = None ↔ weather st = None) ∧
  View.hint v = negb (bool_decide (is_Some (weather st)))
                && negb (loading st) && negb (truthy_string (error st)).
Proof.
  unfold App_render. intros (card & Hc & [= <-])%bind_Ok. cbn.
  repeat split; try done.
  - intros ->. destruct (weather st); [|done].
    by apply bind_Ok in Hc as (? & _ & ?).
  - intros Hw. rewrite Hw in Hc. by injection Hc as <-.
Qed.

Lemma truthy_string_nil_iff s : truthy_string s = false ↔ s = [].
Proof. by destruct s. Qed.

(** X12: the hint is shown exactly when there is no result, no request in
    progress and no error, and then it is alone: no banner, no card, the
    button enabled and labelled "Search". The button is disabled exactly
    when it is labelled "Loading...", and the banner, when shown, holds
    the error of the state. *)
Theorem hint_is_shown_alone st v :
  App_render toLowerCase invalid_child st = Ok v →
  (View.hint v = true ↔
     weather st = None ∧ loading st = false ∧ error st = []) ∧
  (View.hint v = true →
     View.error v = None ∧ View.weather v = None ∧
     View.disabled v = false ∧ View.label v = js "Search") ∧
  (View.disabled v = true ↔ View.label v = js "Loading...") ∧
  (∀ text, View.error v = Some text → text = error st ∧ text ≠ []).
Proof.
  intros (_ & Hd & Hl & He & Hw & Hh)%App_render_Ok.
  assert (Hiff : View.hint v = true ↔
            weather st = None ∧ loading st = false ∧ error st = []).
  { rewrite Hh, !andb_true_iff, !negb_true_iff, truthy_string_nil_iff.
    rewrite bool_decide_eq_false, <- eq_None_not_Some. tauto. }
  split; [done|]. split; [|split].
  - intros (Hw' & Hl' & He')%Hiff.
    rewrite He, Hd, Hl, Hl', He'. cbn. by rewrite Hw.
  - rewrite Hd, Hl. by destruct (loading st).
  - intros text. rewrite He. destruct (error st); [done|].
    cbn. by intros [= <-].
Qed.

(** X13: used with the button alone the page never shows the error banner
    together with a result, and never has a second request in flight. *)
Theorem button_only_never_shows_error_beside_result events v :
  button_only events →
  App_render toLowerCase invalid_child (state (after events)) = Ok v →
  length (pending (after events)) ≤ 1 ∧
  (View.disabled v = true ↔ pending (after events) ≠ []) ∧
  ¬ (is_Some (View.error v) ∧ is_Some (View.weather v)).
Proof.
  intros (Hlen & Hload & _ & Hex)%button_only_orderly
         (_ & Hd & _ & He & Hw & _)%App_render_Ok.
  split; [done|]. split; [by rewrite Hd|].
  intros [Hbanner Hcard]. rewrite He in Hbanner.
  destruct (error (state (after events))) eqn:Herr; [by destruct Hbanner|].
  assert (Hnone : weather (state (after events)) = None) by by apply Hex.
  apply Hw in Hnone. rewrite Hnone in Hcard. by destruct Hcard.
Qed.

Lemma dispatch_Enter page :
  truthy_string (trim (city (state page))) = true →
  dispatch page (KeyPress (js "Enter")) =
    {| state := {| city := city (state page); weather := weather (state page);
                   loading := true; error := [] |};
       pending := pending page ++ [request_url (city (state page))] |}.
Proof.
  intros Hc. cbn [dispatch]. rewrite bool_decide_eq_true_2 by done.
  by rewrite issue_submit, Hc.
Qed.

(** X14: the Enter key is not held back while a request is in flight, and
    then the two responses each write their cells as they arrive. When a
    first request fails and a second one, sent before the first
    settled, succeeds afterwards: the flag goes off at the first
    response although the second request is still in flight, and at the
    end the page holds the message of the first beside the result of the
    second. *)
Theorem overlapping_requests_mix_their_outcomes page o1 o2 e data :
  truthy_string (trim (city (state page))) = true →
  try_block o1 = Throw e →
  try_block o2 = Ok data →
  let n := length (pending page) in
  let url := request_url (city (state page)) in
  let sent := foldl dispatch page [KeyPress (js "Enter"); KeyPress (js "Enter")] in
  let first := dispatch sent (Settled n o1) in
  let second := dispatch first (Settled n o2) in
  pending sent = pending page ++ [url; url] ∧
  (loading (state first) = false ∧ pending first = pending page ++ [url]) ∧
  (pending second = pending page ∧
   loading (state second) = false ∧
   error (state second) = error_message ∧
   weather (state second) = Some data).
Proof.
  intros Hc H1 H2 n url sent first second.
  assert (Hsent : sent =
            {| state := {| city := city (state page);
                           weather := weather (state page);
                           loading := true; error := [] |};
               pending := pending page ++ [url; url] |}).
  { unfold sent. cbn [foldl].
    rewrite (dispatch_Enter page Hc).
    rewrite dispatch_Enter by done.
    cbn. by rewrite <- (assoc_L (++)). }
  assert (Hfirst : first =
            {| state := {| city := city (state page); weather := None;
                           loading := false; error := error_message |};
               pending := pending page ++ [url] |}).
  { unfold first. rewrite Hsent. cbn [dispatch pending state].
    rewrite (list_lookup_middle _ _ _ n) by done.
    rewrite run_settle, H1. unfold n. by rewrite delete_middle. }
  assert (Hsecond : second =
            {| state := {| city := city (state page); weather := Some data;
                           loading := false; error := error_message |};
               pending := pending page |}).
  { unfold second. rewrite Hfirst. cbn [dispatch pending state].
    rewrite (list_lookup_middle _ _ _ n) by done.
    rewrite run_settle, H2. unfold n. rewrite delete_middle.
    by rewrite app_nil_r. }
  by rewrite Hsent, Hfirst, Hsecond.
Qed.

Lemma WeatherIcon_element_Throw v :
  (∀ s, v ≠ Str s) → WeatherIcon_element toLowerCase v = Throw TypeError.
Proof. destruct v; try done. intros Hs. by destruct (Hs s). Qed.

Lemma reduce_Ok_condition data result :
  reduce data = Ok result →
  Ok data ▷ "list" ▷ "0" ▷ "weather" ▷ "0" ▷ "main" =
    Ok (Current.condition (WeatherData.current result)).
Proof.
  unfold reduce.
  intros (current & Hc & (forecast & _ & (name & _ & [= <-])%bind_Ok)%bind_Ok)%bind_Ok.
  unfold process_current in Hc.
  apply bind_Ok in Hc as (temp & _ & Hc).
  apply bind_Ok in Hc as (feels & _ & Hc).
  apply bind_Ok in Hc as (cond & Hw & Hc).
  apply bind_Ok in Hc as (hum & _ & Hc).
  apply bind_Ok in Hc as (speed & _ & Hc).
  apply bind_Ok in Hc as (pr & _ & Hc).
  apply bind_Ok in Hc as (vis & _ & [= <-]). done.
Qed.

Lemma reduce_Ok_city data result :
  reduce data = Ok result →
  Ok data ▷ "city" ▷ "name" = Ok (WeatherData.city result).
Proof.
  unfold reduce.
  by intros (current & _ & (forecast & _ & (name & -> & [= <-])%bind_Ok)%bind_Ok)%bind_Ok.
Qed.

(** X15: the [try] block does not protect the rendering. When the body
    of a response reduces without an exception, the submission ends as a
    success (no error, the result stored, not loading), and rendering
    that state can still throw: React's [Error] at the heading when the
    city name is an object, and otherwise, when the name is a string, a
    [TypeError] in [WeatherIcon] when the [main] of the first sample's
    [weather[0]] is not a string (absent, say). *)
Theorem render_throws_after_success_without_condition
    network st r data result :
  truthy_string (trim (city st)) = true →
  network (request_url (city st)) = Resolved r →
  ok r = true →
  json r = Ok data →
  reduce data = Ok result →
  let final := run st (fetchWeather network st) in
  error final = [] ∧ weather final = Some result ∧ loading final = false ∧
  (∀ properties,
     Ok data ▷ "city" ▷ "name" = Ok (Obj properties) →
     App_render toLowerCase invalid_child final =
       Throw (Error (invalid_child (Obj properties)))) ∧
  (∀ name,
     Ok data ▷ "city" ▷ "name" = Ok (Str name) →
     (∀ s, Ok data ▷ "list" ▷ "0" ▷ "weather" ▷ "0" ▷ "main" ≠ Ok (Str s)) →
     App_render toLowerCase invalid_child final = Throw TypeError).
Proof.
  intros Hc Hn Hok Hj Hr final.
  assert (Ht : try_block (Resolved r) = Ok result).
  { unfold try_block. cbn [mbind result_bind]. by rewrite Hok, Hj. }
  assert (Hfinal : final = {| city := city st; weather := Some result;
                              loading := false; error := [] |}).
  { unfold final. rewrite (fetchWeather_nonblank _ _ Hc), Hn.
    by rewrite (settle_Ok _ _ Ht). }
  rewrite Hfinal. cbn [error weather loading]. repeat split.
  - intros properties Hname.
    pose proof (reduce_Ok_city _ _ Hr) as Hcity. rewrite Hname in Hcity.
    injection Hcity as Hcity.
    unfold App_render, weather_card. cbn [weather mbind result_bind].
    by rewrite <- Hcity.
  - intros name Hname Hcond.
    pose proof (reduce_Ok_city _ _ Hr) as Hcity. rewrite Hname in Hcity.
    injection Hcity as Hcity.
    unfold App_render, weather_card. cbn [weather mbind result_bind].
    rewrite <- Hcity. cbn [render_child mbind result_bind].
    rewrite WeatherIcon_element_Throw; [done|].
    intros s Hs. apply (Hcond s).
    by rewrite (reduce_Ok_condition _ _ Hr), Hs.
Qed.


End ViewFacts.

Section ButtonOnly.
Context `{Runtime}.

(** X17: used with the button alone, at most one request is in flight, the
    loading flag is on exactly while it is, the error is empty while it
    is, and an error is never stored beside a result. *)
Theorem button_only_requests_never_overlap events :
  button_only events →
  length (pending (after events)) ≤ 1 ∧
  (loading (state (after events)) = true ↔ pending (after events) ≠ []) ∧
  (loading (state (after events)) = true → error (state (after events)) = []) ∧
  (error (state (after events)) ≠ [] → weather (state (after events)) = None).
Proof. apply button_only_orderly. Qed.
End ButtonOnly.

(* ===================================================================== *)
(** ** The page on concrete inputs *)
(* ===================================================================== *)

Module PageExamples.
Import Browser Scenarios.


Lemma fetchWeather_transport_failure_witness :
  run shown (fetchWeather unreachable shown) = failed shown.
Proof.
  apply (fetchWeather_transport_failure unreachable shown).
  - vm_compute. reflexivity.
  - left. exists TypeError. reflexivity.
Defined.

Lemma reduce_Ok_shape_witness :
  readable (Ok body_without_condition ▷ "list" ▷ "0" ▷ "weather" ▷ "0") ∧
  readable (Ok body_without_condition ▷ "list" ▷ "0" ▷ "wind") ∧
  readable (Ok body_without_condition ▷ "city") ∧
  length (WeatherData.forecast result_without_condition) ≤ 3.
Proof.
  apply (reduce_Ok_shape body_without_condition result_without_condition).
  vm_compute. reflexivity.
Defined.

Lemma process_current_any_leaves_witness :
  process_current bare_body =
    Ok {| Current.temp := nan; Current.feelsLike := nan;
          Current.condition := Undefined; Current.humidity := Undefined;
          Current.windSpeed := nan; Current.pressure := Undefined;
          Current.visibility := nan |}.
Proof.
  pose proof (process_current_any_leaves bare_body
                Undefined Undefined Undefined Undefined Undefined Undefined
                Undefined) as Hleaves.
  destruct Hleaves as [-> _]; vm_compute; reflexivity.
Defined.

Lemma forecast_loop_skips_items_without_dt_witness :
  forecast_loop ([Num 5; Str (js "x"); Bool true; Obj []]
                 ++ (sample_value <$> two_samples)) [] [] =
    forecast_loop (sample_value <$> two_samples) [] [].
Proof.
  apply (forecast_loop_skips_items_without_dt
           [Num 5; Str (js "x"); Bool true; Obj []]
           (sample_value <$> two_samples) [] []).
  - vm_compute. reflexivity.
  - repeat constructor.
Defined.

Lemma reduce_without_noon_samples_witness :
  reduce (body_value (js "Paris") morning) =
    Ok {| WeatherData.city := Str (js "Paris");
          WeatherData.current :=
            current_conditions (sample_at 3600 3.4 1.2 "Clear");
          WeatherData.forecast := [] |}.
Proof.
  apply (reduce_without_noon_samples
           (body_value (js "Paris") morning)
           (sample_value (sample_at 3600 3.4 1.2 "Clear"))
           [sample_value (sample_at 14400 5.1 1.2 "Clouds")]
           (sample_at 3600 3.4 1.2 "Clear")
           [sample_at 14400 5.1 1.2 "Clouds"]
           (Str (js "Paris"))).
  - vm_compute. reflexivity.
  - repeat constructor.
  - vm_compute. reflexivity.
  - repeat (constructor; [vm_compute; reflexivity|]). constructor.
Defined.

Lemma every_noon_date_has_its_entry_witness :
  ∃ r, r ∈ two_samples ∧ at_noon r = true ∧
       local_date r = local_date (sample_at 43200 9.5 3.1 "Rain") ∧
       daily_entry r ∈ daily_forecast two_samples.
Proof.
  apply (every_noon_date_has_its_entry
           (body_value (js "Paris") two_samples)
           (sample_value <$> two_samples) two_samples
           (daily_forecast two_samples)).
  - vm_compute. reflexivity.
  - apply Forall2_sample_value_carries.
  - vm_compute. reflexivity.
  - vm_compute. lia.
  - unfold two_samples. rewrite !elem_of_cons. by auto.
  - vm_compute. reflexivity.
Defined.

Lemma entry_added_for_first_noon_sample_of_date_witness :
  process_forecast (body_value (js "Paris") two_samples) =
    Ok ((daily_entry <$> representatives [sample_at 0 3.4 1.2 "Clear"])
        ++ [daily_entry (sample_at 43200 9.5 3.1 "Rain")]).
Proof.
  apply (entry_added_for_first_noon_sample_of_date
           (body_value (js "Paris") two_samples)
           (sample_value <$> two_samples)
           [sample_at 0 3.4 1.2 "Clear"] (sample_at 43200 9.5 3.1 "Rain")).
  - vm_compute. reflexivity.
  - apply (Forall2_sample_value_carries two_samples).
  - vm_compute. lia.
  - split; [vm_compute; reflexivity|].
    intros s' Hs' Hnoon. apply list_elem_of_singleton in Hs' as ->.
    vm_compute in Hnoon. discriminate Hnoon.
Defined.

Lemma loading_only_while_pending_witness :
  pending (after typed_and_clicked) ≠ [].
Proof.
  apply (loading_only_while_pending typed_and_clicked).
  vm_compute. reflexivity.
Defined.

Lemma shown_forecast_at_most_three_witness :
  length (WeatherData.forecast two_samples_result) ≤ 3.
Proof.
  apply (shown_forecast_at_most_three
           (typed_and_clicked
            ++ [Settled 0 (answers (body_value (js "Paris") two_samples) [])])
           two_samples_result).
  vm_compute. reflexivity.
Defined.

Lemma button_only_requests_never_overlap_witness :
  let events := typed_and_clicked ++ [Click; KeyPress (js "a"); Click] in
  length (pending (after events)) ≤ 1 ∧
  (loading (state (after events)) = true ↔ pending (after events) ≠ []) ∧
  (loading (state (after events)) = true → error (state (after events)) = []) ∧
  (error (state (after events)) ≠ [] → weather (state (after events)) = None).
Proof.
  apply (button_only_requests_never_overlap
           (typed_and_clicked ++ [Click; KeyPress (js "a"); Click])).
  repeat (constructor; [discriminate|]). constructor.
Defined.

Lemma overlapping_requests_mix_their_outcomes_witness :
  let page := {| state := paris; pending := [] |} in
  let sent := foldl dispatch page [KeyPress (js "Enter"); KeyPress (js "Enter")] in
  let first := dispatch sent (Settled 0 (not_found [])) in
  let second :=
    dispatch first (Settled 0 (answers (body_value (js "Paris") two_samples) [])) in
  pending sent = [request_url (js "Paris"); request_url (js "Paris")] ∧
  (loading (state first) = false ∧ pending first = [request_url (js "Paris")]) ∧
  (pending second = [] ∧
   loading (state second) = false ∧
   error (state second) = error_message ∧
   weather (state second) = Some two_samples_result).
Proof.
  apply (overlapping_requests_mix_their_outcomes
           {| state := paris; pending := [] |}
           (not_found []) (answers (body_value (js "Paris") two_samples) [])
           (Error (js "City not found")) two_samples_result);
    vm_compute; reflexivity.
Defined.

Lemma hint_is_shown_alone_witness :
  View.hint initial_view = true ↔
    weather initial = None ∧ loading initial = false ∧ error initial = [].
Proof.
  apply (hint_is_shown_alone toLowerCase_ascii invalid_child initial initial_view).
  vm_compute. reflexivity.
Defined.

Lemma button_only_never_shows_error_beside_result_witness :
  length (pending (after typed_and_clicked)) ≤ 1 ∧
  (View.disabled loading_view = true ↔ pending (after typed_and_clicked) ≠ []) ∧
  ¬ (is_Some (View.error loading_view) ∧ is_Some (View.weather loading_view)).
Proof.
  apply (button_only_never_shows_error_beside_result toLowerCase_ascii
           invalid_child typed_and_clicked loading_view).
  - repeat (constructor; [discriminate|]). constructor.
  - vm_compute. reflexivity.
Defined.

Lemma render_throws_after_success_without_condition_witness :
  App_render toLowerCase_ascii invalid_child
    (run paris (fetchWeather (answers body_without_condition) paris)) =
    Throw TypeError.
Proof.
  refine (proj2 (proj2 (proj2 (proj2
            (render_throws_after_success_without_condition
               toLowerCase_ascii invalid_child
               (answers body_without_condition) paris
               {| status := 200; json := Ok body_without_condition |}
               body_without_condition result_without_condition
               _ _ _ _ _)))) (js "Paris") _ _).
  1-6: vm_compute; reflexivity.
  intros s. vm_compute. discriminate.
Defined.

End PageExamples.

(* ===================================================================== *)
(** ** Structural failures *)
(* ===================================================================== *)

Section StructuralFailures.
Context `{Runtime}.





End StructuralFailures.

Module FailureExamples.
Import Browser Scenarios.


End FailureExamples.
